(** * hantei-app: the disclosure-request verdict handler

    A shallow embedding of the serverless handler of [api/hantei.js].
    The repository holds two revisions of that file:

    - the revised handler (prompt escaping, length limit, score clamp,
      top-level try/catch), embedded at top level below;
    - the earlier handler [src/api/hantei.js], embedded in [Module Legacy].

    The scoring rules, the verdict thresholds and the collective verdict
    are the same text in both revisions and are shared. *)

From Stdlib Require Import ZArith NArith QArith Ascii String DecimalString List Bool Lia.
From stdpp Require Import base gmap list.
Import ListNotations.

Local Open Scope Z_scope.

(** ** JavaScript strings

    A JS string is a sequence of UTF-16 code units; [length], [trim],
    [replace] and regular-expression matching all work on code units. *)

Module JsString.

Abbreviation jsstring := (list N).

(** *** Literals

    Source literals are written as UTF-8 text in this file and decoded to
    code units once, at definition time. *)

Definition cont (b : N) : N := N.land b 63.

Fixpoint utf8_decode (fuel : nat) (bs : list N) : list N :=
  match fuel with
  | O => []
  | S fuel' =>
    match bs with
    | [] => []
    | b0 :: r0 =>
      if (b0 <? 128)%N then b0 :: utf8_decode fuel' r0
      else if (b0 <? 224)%N then
        match r0 with
        | b1 :: r1 =>
          (N.shiftl (N.land b0 31) 6 + cont b1)%N :: utf8_decode fuel' r1
        | _ => []
        end
      else if (b0 <? 240)%N then
        match r0 with
        | b1 :: b2 :: r2 =>
          (N.shiftl (N.land b0 15) 12 + N.shiftl (cont b1) 6 + cont b2)%N
            :: utf8_decode fuel' r2
        | _ => []
        end
      else
        match r0 with
        | b1 :: b2 :: b3 :: r3 =>
          (N.shiftl (N.land b0 7) 18 + N.shiftl (cont b1) 12
           + N.shiftl (cont b2) 6 + cont b3)%N :: utf8_decode fuel' r3
        | _ => []
        end
    end
  end.

Definition utf16_encode (cp : N) : list N :=
  if (cp <? 65536)%N then [cp]
  else let v := (cp - 65536)%N in
       [(55296 + N.shiftr v 10)%N; (56320 + N.land v 1023)%N].

Definition bytes_of (s : string) : list N :=
  map N_of_ascii (list_ascii_of_string s).

Definition js (s : string) : jsstring :=
  let bs := bytes_of s in
  flat_map utf16_encode (utf8_decode (length bs) bs).

(** *** Equality and search *)

Fixpoint eqb (a b : jsstring) : bool :=
  match a, b with
  | [], [] => true
  | x :: a', y :: b' => (x =? y)%N && eqb a' b'
  | _, _ => false
  end.

(** [starts_with k s]: [k] is a prefix of [s]. *)
Fixpoint starts_with (k s : jsstring) : bool :=
  match k, s with
  | [], _ => true
  | _ :: _, [] => false
  | x :: k', y :: s' => (x =? y)%N && starts_with k' s'
  end.

(** [includes k s]: [k] occurs somewhere in [s]. *)
Fixpoint includes (k s : jsstring) : bool :=
  starts_with k s ||
  match s with
  | [] => false
  | _ :: s' => includes k s'
  end.

(** *** [String.prototype.trim]

    The code units removed by [trim]: the ECMAScript WhiteSpace and
    LineTerminator productions. *)
Definition is_space (u : N) : bool :=
  ((9 <=? u) && (u <=? 13) || (u =? 32) || (u =? 160) || (u =? 5760)
   || (8192 <=? u) && (u <=? 8202) || (u =? 8232) || (u =? 8233)
   || (u =? 8239) || (u =? 8287) || (u =? 12288) || (u =? 65279))%N.

Fixpoint trim_start (s : jsstring) : jsstring :=
  match s with
  | [] => []
  | u :: s' => if is_space u then trim_start s' else s
  end.

Definition trim_end (s : jsstring) : jsstring :=
  rev (trim_start (rev s)).

Definition trim (s : jsstring) : jsstring := trim_end (trim_start s).

(** *** [s.replace(/c/g, by)] for a single code unit [c] *)
Definition replace_all (c : N) (by_ : jsstring) (s : jsstring) : jsstring :=
  flat_map (fun u => if (u =? c)%N then by_ else [u]) s.

(** *** Regular expressions of the form [/k1|k2|...|kn/]

    Every pattern of the handler is an alternation of literal words
    without anchors or flags, so [test] holds exactly when one of the
    words occurs in the subject. *)
Definition regex_test (alternatives : list jsstring) (s : jsstring) : bool :=
  existsb (fun k => includes k s) alternatives.

End JsString.
Import JsString.

(** ** Data model *)

(** A property of a parsed reply: absent, JSON [null], or a value. *)
Inductive Field (A : Type) :=
| Absent
| Null
| Has (a : A).
Arguments Absent {A}.
Arguments Null {A}.
Arguments Has {A} a.

(** The value a call to the generative-language API yields when it is not
    [null], seen through the properties the handler reads (a number, a
    string or an array has none of them).  The categorical levels, the
    reason and the comments are JSON strings and the adjustments are JSON
    integers. *)
Record ApiObject := {
  error : Field jsstring;
  legal_risk : Field jsstring;
  corporate_risk : Field jsstring;
  emotional_discomfort : Field jsstring;
  reason : Field jsstring;
  bengo_adjust : Field Z;
  houmu_adjust : Field Z;
  onee_adjust : Field Z;
  bengo_comment : Field jsstring;
  houmu_comment : Field jsstring;
  onee_comment : Field jsstring
}.

(** [{ error: msg }] *)
Definition error_object (msg : jsstring) : ApiObject :=
  {| error := Has msg; legal_risk := Absent; corporate_risk := Absent;
     emotional_discomfort := Absent; reason := Absent;
     bengo_adjust := Absent; houmu_adjust := Absent; onee_adjust := Absent;
     bengo_comment := Absent; houmu_comment := Absent;
     onee_comment := Absent |}.

(** [{ legal_risk, corporate_risk, emotional_discomfort, reason }] *)
Definition risk_object (l c e r : jsstring) : ApiObject :=
  {| error := Absent; legal_risk := Has l; corporate_risk := Has c;
     emotional_discomfort := Has e; reason := Has r;
     bengo_adjust := Absent; houmu_adjust := Absent; onee_adjust := Absent;
     bengo_comment := Absent; houmu_comment := Absent;
     onee_comment := Absent |}.

(** [{ bengo_adjust, houmu_adjust, onee_adjust }] *)
Definition adjust_object (b h o : Z) : ApiObject :=
  {| error := Absent; legal_risk := Absent; corporate_risk := Absent;
     emotional_discomfort := Absent; reason := Absent;
     bengo_adjust := Has b; houmu_adjust := Has h; onee_adjust := Has o;
     bengo_comment := Absent; houmu_comment := Absent;
     onee_comment := Absent |}.

(** [{ bengo_comment, houmu_comment, onee_comment }] *)
Definition comment_object (b h o : jsstring) : ApiObject :=
  {| error := Absent; legal_risk := Absent; corporate_risk := Absent;
     emotional_discomfort := Absent; reason := Absent;
     bengo_adjust := Absent; houmu_adjust := Absent; onee_adjust := Absent;
     bengo_comment := Has b; houmu_comment := Has h; onee_comment := Has o |}.

(** What [JSON.parse] hands back: [null], or a value whose properties can
    be read. *)
Inductive JsonValue :=
| JsonNull
| JsonObject (obj : ApiObject).

(** *** Truthiness and the [||] default *)

(** An environment variable is truthy when set and non-empty. *)
Definition truthy_str (o : option jsstring) : bool :=
  match o with
  | Some (_ :: _) => true
  | _ => false
  end.

(** A string property is truthy when it holds a non-empty string. *)
Definition truthy_field (f : Field jsstring) : bool :=
  match f with
  | Has (_ :: _) => true
  | _ => false
  end.

(** [x || d] on a numeric property: [undefined], [null] and [0] give [d]. *)
Definition or_num (f : Field Z) (d : Z) : Z :=
  match f with
  | Has v => if v =? 0 then d else v
  | _ => d
  end.

(** [x || d] on a string property. *)
Definition or_str (f : Field jsstring) (d : jsstring) : jsstring :=
  match f with
  | Has (u :: s) => u :: s
  | _ => d
  end.

(** A property used as a key or inside a template: a missing one prints
    as [undefined], a [null] one as [null]. *)
Definition undefined_word : jsstring := Eval vm_compute in js "undefined".
Definition null_word : jsstring := Eval vm_compute in js "null".

Definition to_text (f : Field jsstring) : jsstring :=
  match f with
  | Absent => undefined_word
  | Null => null_word
  | Has s => s
  end.

(** *** Scores

    A score variable holds a number, or a value that is not one: the
    function or object an inherited property yields, the string that [+]
    makes of it, or the [NaN] that [Math.min] and [Math.max] make of
    that string.  Adding to such a value never gives a number back and
    every comparison with it is false. *)
Inductive Score :=
| Num (z : Z)
| NotNumber.

(** [score + n] and [score += n] *)
Definition score_add (s : Score) (n : Z) : Score :=
  match s with
  | Num z => Num (z + n)
  | NotNumber => NotNumber
  end.

(** [score >= k] *)
Definition score_geb (s : Score) (k : Z) : bool :=
  match s with
  | Num z => z >=? k
  | NotNumber => false
  end.

(** ** Scoring (section 3 of the handler) *)

Definition kou : jsstring := Eval vm_compute in js "高".
Definition chuu : jsstring := Eval vm_compute in js "中".
Definition tei : jsstring := Eval vm_compute in js "低".

(** [const riskToScore = { "高": 4, "中": 2, "低": 1 }] *)
Definition riskToScore : gmap jsstring Z :=
  <[kou := 4]> (<[chuu := 2]> (<[tei := 1]> ∅)).

(** The property names every plain object inherits from
    [Object.prototype]. *)
Definition object_prototype_keys : list jsstring :=
  Eval vm_compute in
    map js ["constructor"; "__defineGetter__"; "__defineSetter__";
            "hasOwnProperty"; "__lookupGetter__"; "__lookupSetter__";
            "isPrototypeOf"; "propertyIsEnumerable"; "toString"; "valueOf";
            "__proto__"; "toLocaleString"]%string.

Definition inherited_key (key : jsstring) : bool :=
  existsb (JsString.eqb key) object_prototype_keys.

(** [riskToScore[key]]: the number of an own key; for an inherited name
    the function (or, for [__proto__], the object) found on the prototype;
    [undefined] otherwise. *)
Inductive Member :=
| OwnNumber (z : Z)
| InheritedMember
| NoMember.

Definition riskToScore_get (key : jsstring) : Member :=
  match riskToScore !! key with
  | Some v => OwnNumber v
  | None => if inherited_key key then InheritedMember else NoMember
  end.

(** [riskToScore[level] || 1]: an inherited member is truthy and stays. *)
Definition base_score (level : Field jsstring) : Score :=
  match riskToScore_get (to_text level) with
  | OwnNumber v => Num (if v =? 0 then 1 else v)
  | InheritedMember => NotNumber
  | NoMember => Num 1
  end.

(** The three [let ...PrimaryScore] variables. *)
Record Primary := {
  bengoPrimaryScore : Score;
  houmuPrimaryScore : Score;
  oneePrimaryScore : Score
}.

Definition initial_primary (aiResult : ApiObject) : Primary :=
  {| bengoPrimaryScore := base_score (legal_risk aiResult);
     houmuPrimaryScore := base_score (corporate_risk aiResult);
     oneePrimaryScore := base_score (emotional_discomfort aiResult) |}.

(** The five keyword patterns, in source order. *)
Definition words1 : list jsstring :=
  Eval vm_compute in map js ["殺す"; "刺す"; "めった刺し"; "放火"]%string.
Definition words2 : list jsstring :=
  Eval vm_compute in map js ["死ね"; "生きる価値"; "犯罪者"]%string.
Definition words3 : list jsstring :=
  Eval vm_compute in map js ["違法"; "逮捕"; "前科"; "横領"]%string.
Definition words4 : list jsstring :=
  Eval vm_compute in
    map js ["バカ"; "アホ"; "無能"; "キモい"; "頭が悪い"; "ブス"; "デブ"; "ハゲ";
            "醜い"; "チビ"]%string.
Definition words5 : list jsstring :=
  Eval vm_compute in
    map js ["倒産"; "ブラック企業"; "隠蔽"; "パワハラ"; "セクハラ"]%string.

(** The six conditional updates of the primary scores, numbered as in the
    source: five keyword tests on the text and one test on the risk
    assessment. *)
Inductive Rule := Rule1 | Rule2 | Rule3 | Rule4 | Rule5 | Rule6.

Definition all_rules : list Rule := [Rule1; Rule2; Rule3; Rule4; Rule5; Rule6].

Definition fires (r : Rule) (text : jsstring) (aiResult : ApiObject) : bool :=
  match r with
  | Rule1 => regex_test words1 text
  | Rule2 => regex_test words2 text
  | Rule3 => regex_test words3 text
  | Rule4 => regex_test words4 text
  | Rule5 => regex_test words5 text
  | Rule6 => match emotional_discomfort aiResult with
             | Has level => JsString.eqb level kou
             | _ => false
             end
  end.

(** The body of each [if]. *)
Definition effect (r : Rule) (p : Primary) : Primary :=
  match r with
  | Rule1 => {| bengoPrimaryScore := Num 9;
                oneePrimaryScore := Num 10;
                houmuPrimaryScore := score_add (houmuPrimaryScore p) 4 |}
  | Rule2 => {| bengoPrimaryScore := score_add (bengoPrimaryScore p) 4;
                oneePrimaryScore := score_add (oneePrimaryScore p) 5;
                houmuPrimaryScore := score_add (houmuPrimaryScore p) 2 |}
  | Rule3 => {| bengoPrimaryScore := score_add (bengoPrimaryScore p) 3;
                houmuPrimaryScore := score_add (houmuPrimaryScore p) 3;
                oneePrimaryScore := oneePrimaryScore p |}
  | Rule4 => {| oneePrimaryScore := score_add (oneePrimaryScore p) 3;
                bengoPrimaryScore := score_add (bengoPrimaryScore p) 2;
                houmuPrimaryScore := houmuPrimaryScore p |}
  | Rule5 => {| houmuPrimaryScore := score_add (houmuPrimaryScore p) 4;
                bengoPrimaryScore := score_add (bengoPrimaryScore p) 2;
                oneePrimaryScore := oneePrimaryScore p |}
  | Rule6 => {| oneePrimaryScore := score_add (oneePrimaryScore p) 2;
                bengoPrimaryScore := bengoPrimaryScore p;
                houmuPrimaryScore := houmuPrimaryScore p |}
  end.

Definition step (text : jsstring) (aiResult : ApiObject)
    (p : Primary) (r : Rule) : Primary :=
  if fires r text aiResult then effect r p else p.

(** The primary scores after the six [if] statements have run in order. *)
Definition primary_scores (text : jsstring) (aiResult : ApiObject) : Primary :=
  fold_left (step text aiResult) all_rules (initial_primary aiResult).

(** [const clamp = (value, min, max) => Math.max(min, Math.min(max, value))]:
    what is not a number comes out as [NaN]. *)
Definition clamp (value : Score) (min max : Z) : Score :=
  match value with
  | Num z => Num (Z.max min (Z.min max z))
  | NotNumber => NotNumber
  end.

(** The three final scores. *)
Record Scores := {
  bengoScore : Score;
  houmuScore : Score;
  oneeScore : Score
}.

(** ** Verdicts *)

(** The three verdict strings. *)
Inductive Hantei := Sansei | Chuuritsu | Hantai.

Definition sansei_text : jsstring := Eval vm_compute in js "開示に賛成".
Definition chuuritsu_text : jsstring := Eval vm_compute in js "中立".
Definition hantai_text : jsstring := Eval vm_compute in js "開示に反対".

Definition hantei_text (h : Hantei) : jsstring :=
  match h with
  | Sansei => sansei_text
  | Chuuritsu => chuuritsu_text
  | Hantai => hantai_text
  end.

(** [getHantei = (score, sansei, chuuritsu) => ...] *)
Definition getHantei (score : Score) (sansei chuuritsu : Z) : Hantei :=
  if score_geb score sansei then Sansei
  else if score_geb score chuuritsu then Chuuritsu
  else Hantai.

Module HanteiFlags.
Record t := { bengo : Hantei; houmu : Hantei; onee : Hantei }.
(** [Object.values(hanteiFlags)] *)
Definition values (f : t) : list Hantei := [bengo f; houmu f; onee f].
End HanteiFlags.

Definition hanteiFlags (s : Scores) : HanteiFlags.t :=
  {| HanteiFlags.bengo := getHantei (bengoScore s) 5 3;
     HanteiFlags.houmu := getHantei (houmuScore s) 5 4;
     HanteiFlags.onee := getHantei (oneeScore s) 5 3 |}.

(** ** Collective verdict (section 5 of the handler) *)

(** One pass of the [forEach] body. *)
Definition tally (gougiScore : Q) (hantei : Hantei) : Q :=
  let gougiScore :=
    match hantei with Sansei => (gougiScore + 1)%Q | _ => gougiScore end in
  match hantei with Chuuritsu => (gougiScore + (1 # 2))%Q | _ => gougiScore end.

Definition gougiScore (flags : HanteiFlags.t) : Q :=
  fold_left tally (HanteiFlags.values flags) 0%Q.

Definition gougi_dai : jsstring := Eval vm_compute in js "開示の可能性 大！".
Definition gougi_ware : jsstring :=
  Eval vm_compute in js "開示の可能性あり (意見割れ)".
Definition gougi_miokuri : jsstring := Eval vm_compute in js "見送り (開示は困難)".
Definition gougi_bousou : jsstring :=
  Eval vm_compute in js "弁護士暴走！開示請求すべき！".
Definition class_kettei : jsstring := Eval vm_compute in js "gougi-kettei".
Definition class_ware : jsstring := Eval vm_compute in js "gougi-ware".
Definition class_miokuri : jsstring := Eval vm_compute in js "gougi-miokuri".

Record Gougi := { gougiResult : jsstring; gougiClass : jsstring }.

(** [gougiScore >= n] and [gougiScore < n] on the tally. *)
Definition q_ge (x n : Q) : bool := Qle_bool n x.
Definition q_lt (x n : Q) : bool := negb (Qle_bool n x).

Definition gougi (bengoScore : Score) (gougiScore : Q) : Gougi :=
  let first :=
    if q_ge gougiScore 2 then
      {| gougiResult := gougi_dai; gougiClass := class_kettei |}
    else if q_ge gougiScore 1 then
      {| gougiResult := gougi_ware; gougiClass := class_ware |}
    else
      {| gougiResult := gougi_miokuri; gougiClass := class_miokuri |} in
  if score_geb bengoScore 7 && q_lt gougiScore 2 then
    {| gougiResult := gougi_bousou; gougiClass := class_kettei |}
  else first.

(** ** Display strings *)

Inductive Persona := Bengo | Houmu | Onee.

Definition prefix_sansei : jsstring := Eval vm_compute in js "【判定：開示に賛成】".
Definition prefix_sansei_onee : jsstring := Eval vm_compute in js "【判定：賛成よ！】".
Definition prefix_chuuritsu_bengo : jsstring :=
  Eval vm_compute in js "【判定：中立（要検討）】".
Definition prefix_chuuritsu_houmu : jsstring :=
  Eval vm_compute in js "【判定：中立（要監視）】".
Definition prefix_chuuritsu_onee : jsstring :=
  Eval vm_compute in js "【判定：どっちとも言えないわね】".
Definition prefix_hantai : jsstring := Eval vm_compute in js "【判定：開示に反対】".
Definition prefix_hantai_onee : jsstring := Eval vm_compute in js "【判定：反対よ！】".

Definition getPrefix (hantei : Hantei) (persona : Persona) : jsstring :=
  match hantei with
  | Sansei =>
    match persona with Onee => prefix_sansei_onee | _ => prefix_sansei end
  | Chuuritsu =>
    match persona with
    | Bengo => prefix_chuuritsu_bengo
    | Houmu => prefix_chuuritsu_houmu
    | Onee => prefix_chuuritsu_onee
    end
  | Hantai =>
    match persona with Onee => prefix_hantai_onee | _ => prefix_hantai end
  end.

Module FinalResponse.
Record t := {
  gougi : jsstring;
  gougiClass : jsstring;
  bengo : jsstring;
  houmu : jsstring;
  onee : jsstring;
  ai_reason : Field jsstring
}.
End FinalResponse.

Definition space : jsstring := [32%N].

(** [getPrefix(h, persona) + " " + (comment || "")] *)
Definition display (hantei : Hantei) (persona : Persona)
    (comment : Field jsstring) : jsstring :=
  getPrefix hantei persona ++ space ++ or_str comment [].

(** ** Prompts *)

(** [escapeForPrompt]: five replacements, in source order. *)
Definition escapeForPrompt (text : jsstring) : jsstring :=
  replace_all 9 [92; 116]%N
    (replace_all 13 [92; 114]%N
      (replace_all 10 [92; 110]%N
        (replace_all 34 [92; 34]%N
          (replace_all 92 [92; 92]%N text)))).

(** A prompt is one of three templates; only the substituted values are
    kept, the fixed text of a template is not represented. *)
Inductive Prompt :=
| riskAnalysisPrompt (text : jsstring)
| adjustmentPrompt (text : jsstring)
| commentPrompt (text : jsstring)
    (reason legal_risk corporate_risk emotional_discomfort : jsstring)
    (flags : HanteiFlags.t).

Definition make_commentPrompt (text : jsstring) (aiResult : ApiObject)
    (flags : HanteiFlags.t) : Prompt :=
  commentPrompt text (to_text (reason aiResult))
    (to_text (legal_risk aiResult)) (to_text (corporate_risk aiResult))
    (to_text (emotional_discomfort aiResult)) flags.

(** ** The outside world *)

(** What the generative-language endpoint does with a request. *)
Inductive FetchOutcome :=
| FetchRejects                                   (* [fetch] or [response.json()] throws *)
| HttpError (status : N)                         (* [!response.ok] *)
| NoContent (blockReason : Field jsstring)       (* no candidate text *)
| Malformed                                      (* the text is not JSON *)
| Json (value : JsonValue).                      (* the text parses *)

Abbreviation Network := (Prompt -> FetchOutcome).

Record Env := {
  GEMINI_API_KEY : option jsstring;
  NODE_ENV : option jsstring
}.

(** A value of [req.body.tweetText]. *)
Inductive jsval :=
| JUndefined
| JNull
| JBool (b : bool)
| JNumber (n : Z)
| JString (s : jsstring)
| JObject.

Definition truthy (v : jsval) : bool :=
  match v with
  | JUndefined | JNull => false
  | JBool b => b
  | JNumber n => negb (n =? 0)
  | JString s => negb (JsString.eqb s [])
  | JObject => true
  end.

Definition typeof_string (v : jsval) : bool :=
  match v with JString _ => true | _ => false end.

(** [req]: the method, and the body when there is one to destructure. *)
Record Request := {
  method : jsstring;
  body : option jsval
}.

Inductive JsError := TypeError.

Inductive Body :=
| MessageBody (message : jsstring)
| ErrorBody (message : jsstring)
| ObjectBody (obj : ApiObject)
| ServerErrorBody (message : jsstring) (details : option JsError)
| FinalBody (r : FinalResponse.t).

Inductive Reply :=
| Responded (status : Z) (b : Body)
| Unhandled (e : JsError).

(** Observable effects, in the order they happen (logging is left out). *)
Inductive Event :=
| SetHeader
| ReadApiKey
| ReadBody
| Fetch (prompt : Prompt).

(** ** A small monad: effects are logged; a response or an exception ends
    the run. *)

Inductive Step (A : Type) :=
| Next (a : A)
| Exit (r : Reply).
Arguments Next {A} a.
Arguments Exit {A} r.

Definition M (A : Type) : Type := (list Event * Step A)%type.

Definition ret {A} (a : A) : M A := ([], Next a).

Definition bind {A B} (m : M A) (k : A -> M B) : M B :=
  match m with
  | (t, Next a) => let (t', s) := k a in (t ++ t', s)
  | (t, Exit r) => (t, Exit r)
  end.

Declare Scope handler_scope.
Delimit Scope handler_scope with handler.
Notation "x <- m ;; k" := (bind m (fun x => k))
  (at level 100, m at next level, right associativity) : handler_scope.
Notation "m ;; k" := (bind m (fun _ => k))
  (at level 100, right associativity) : handler_scope.

Definition emit (e : Event) : M unit := ([e], Next tt).

(** [return res.status(status).json(b)] *)
Definition respond {A} (status : Z) (b : Body) : M A :=
  ([], Exit (Responded status b)).

Definition throw {A} (e : JsError) : M A := ([], Exit (Unhandled e)).

(** [try { ... } catch (error) { ... }] around a run. *)
Definition try_catch {A} (m : M A) (handle : JsError -> Reply) : M A :=
  match m with
  | (t, Exit (Unhandled e)) => (t, Exit (handle e))
  | _ => m
  end.

(** The reply of a finished run. *)
Definition run (m : M Reply) : list Event * Reply :=
  match m with
  | (t, Next r) => (t, r)
  | (t, Exit r) => (t, r)
  end.

(** ** Fixed strings of the handler *)

Definition POST : jsstring := Eval vm_compute in js "POST".
Definition development : jsstring := Eval vm_compute in js "development".
Definition method_not_allowed : jsstring := Eval vm_compute in js "Method Not Allowed".
Definition msg_no_key : jsstring :=
  Eval vm_compute in js "APIキーがサーバーに設定されていません。".
Definition msg_no_text : jsstring :=
  Eval vm_compute in js "判定するテキストがありません。".
Definition msg_too_long : jsstring :=
  Eval vm_compute in js "テキストが長すぎます（最大1000文字）。".
Definition msg_http_open : jsstring :=
  Eval vm_compute in js "AIとの通信でエラーが発生しました (コード: ".
Definition msg_http_close : jsstring := Eval vm_compute in js ")。".
Definition msg_blocked : jsstring :=
  Eval vm_compute in js "AIが応答をブロックしました: ".
Definition unknown_reason : jsstring := Eval vm_compute in js "不明な理由".
Definition msg_parse : jsstring :=
  Eval vm_compute in js "AIの応答の解析に失敗しました。".
Definition msg_fatal : jsstring :=
  Eval vm_compute in js "API通信で致命的なエラーが発生しました。".
Definition msg_server : jsstring :=
  Eval vm_compute in js "サーバーエラーが発生しました。".
Definition fallback_comment : jsstring :=
  Eval vm_compute in js "技術的な問題により、詳細なコメントを生成できませんでした。".
Definition fallback_reason : jsstring :=
  Eval vm_compute in js "分析情報を取得できませんでした".
Definition paren_open : jsstring := Eval vm_compute in js "（".
Definition paren_close : jsstring := Eval vm_compute in js "）".
Definition doujou : jsstring := Eval vm_compute in js "（同上）".

(** Decimal rendering of a status code inside a template. *)
Definition decimal (n : N) : jsstring :=
  js (DecimalString.NilZero.string_of_uint (N.to_uint n)).

Definition msg_http (status : N) : jsstring :=
  msg_http_open ++ decimal status ++ msg_http_close.

(** [const { tweetText } = req.body]: a missing body cannot be destructured. *)
Definition destructure (req : Request) : M jsval :=
  bind (emit ReadBody) (fun _ =>
    match body req with
    | Some tweetText => ret tweetText
    | None => throw TypeError
    end).

(** [tweetText.trim() === ''], reached only for strings. *)
Definition trims_to_empty (v : jsval) : bool :=
  match v with
  | JString s => JsString.eqb (trim s) []
  | _ => false
  end.

(** The adjustments and comments substituted when a call fails. *)
Definition zero_adjustments : ApiObject := adjust_object 0 0 0.

(** The verdict part of the response, common to both revisions. *)
Definition finalResponse (scores : Scores) (comments : ApiObject)
    (ai_reason : Field jsstring) : FinalResponse.t :=
  let flags := hanteiFlags scores in
  let g := gougi (bengoScore scores) (gougiScore flags) in
  {| FinalResponse.gougi := gougiResult g;
     FinalResponse.gougiClass := gougiClass g;
     FinalResponse.bengo :=
       display (HanteiFlags.bengo flags) Bengo (bengo_comment comments);
     FinalResponse.houmu :=
       display (HanteiFlags.houmu flags) Houmu (houmu_comment comments);
     FinalResponse.onee :=
       display (HanteiFlags.onee flags) Onee (onee_comment comments);
     FinalResponse.ai_reason := ai_reason |}.

Local Open Scope handler_scope.

(** ** The revised handler *)

(** What [callApi] returns for each outcome of the request: every failure
    becomes an object with an [error] property, and a parsed text comes
    back as it is, [null] included. *)
Definition to_object (outcome : FetchOutcome) : JsonValue :=
  match outcome with
  | FetchRejects => JsonObject (error_object msg_fatal)
  | HttpError status => JsonObject (error_object (msg_http status))
  | NoContent blockReason =>
    JsonObject (error_object (msg_blocked ++ or_str blockReason unknown_reason))
  | Malformed => JsonObject (error_object msg_parse)
  | Json value => value
  end.

Definition callApi (net : Network) (prompt : Prompt) : M JsonValue :=
  emit (Fetch prompt) ;;
  ret (to_object (net prompt)).

(** The first property read on what [callApi] returned ([aiResult.error],
    [adjustments.error], [comments.error]): reading a property of [null]
    raises a TypeError. *)
Definition properties (value : JsonValue) : M ApiObject :=
  match value with
  | JsonNull => throw TypeError
  | JsonObject obj => ret obj
  end.

(** The two guards on [tweetText]: the message of the 400 response, or the
    text that goes on. *)
Definition validate (tweetText : jsval) : jsstring + jsstring :=
  if negb (truthy tweetText) || negb (typeof_string tweetText)
     || trims_to_empty tweetText
  then inl msg_no_text
  else match tweetText with
       | JString s =>
         if 1000 <? Z.of_nat (length s) then inl msg_too_long else inr s
       | _ => inl msg_no_text
       end.

Definition fallback_comments : ApiObject :=
  comment_object fallback_comment fallback_comment fallback_comment.

Definition absorb_adjustments (adjustments : ApiObject) : ApiObject :=
  if truthy_field (error adjustments) then zero_adjustments else adjustments.

Definition absorb_comments (comments : ApiObject) : ApiObject :=
  if truthy_field (error comments) then fallback_comments else comments.

(** [process.env.NODE_ENV === 'development'] *)
Definition is_development (env : Env) : bool :=
  match NODE_ENV env with
  | Some value => JsString.eqb value development
  | None => false
  end.

Definition on_exception (env : Env) (e : JsError) : Reply :=
  Responded 500
    (ServerErrorBody msg_server (if is_development env then Some e else None)).

Section Revised.

(** [String.prototype.toLowerCase], a built-in of the platform. *)
Variable toLowerCase : jsstring -> jsstring.

(** The primary scores before the adjustments are added. *)
Definition pre_adjustment (tweetText : jsstring) (aiResult : ApiObject)
    : Primary :=
  let text := toLowerCase tweetText in
  primary_scores text aiResult.

Definition scoring (tweetText : jsstring) (aiResult adjustments : ApiObject)
    : Scores :=
  let p := pre_adjustment tweetText aiResult in
  {| bengoScore :=
       clamp (score_add (bengoPrimaryScore p)
                (or_num (bengo_adjust adjustments) 0)) 0 10;
     houmuScore :=
       clamp (score_add (houmuPrimaryScore p)
                (or_num (houmu_adjust adjustments) 0)) 0 10;
     oneeScore :=
       clamp (score_add (oneePrimaryScore p)
                (or_num (onee_adjust adjustments) 0)) 0 10 |}.

(** Everything after the validation. *)
Definition pipeline (net : Network) (tweetText : jsstring) : M Reply :=
  let escapedText := escapeForPrompt tweetText in
  aiResult <- callApi net (riskAnalysisPrompt escapedText) ;;
  aiResult <- properties aiResult ;;
  if truthy_field (error aiResult) then respond 500 (ObjectBody aiResult) else
  adjustments <- callApi net (adjustmentPrompt escapedText) ;;
  adjustments <- properties adjustments ;;
  let adjustments := absorb_adjustments adjustments in
  let scores := scoring tweetText aiResult adjustments in
  comments <-
    callApi net (make_commentPrompt escapedText aiResult (hanteiFlags scores)) ;;
  comments <- properties comments ;;
  let comments := absorb_comments comments in
  respond 200
    (FinalBody
       (finalResponse scores comments
          (Has (or_str (reason aiResult) fallback_reason)))).

Definition handler (env : Env) (net : Network) (req : Request)
    : list Event * Reply :=
  run
    (try_catch
       (emit SetHeader ;;
        if negb (JsString.eqb (method req) POST)
        then respond 405 (MessageBody method_not_allowed) else
        emit ReadApiKey ;;
        if negb (truthy_str (GEMINI_API_KEY env))
        then respond 500 (ErrorBody msg_no_key) else
        tweetText <- destructure req ;;
        match validate tweetText with
        | inl message => respond 400 (ErrorBody message)
        | inr tweetText => pipeline net tweetText
        end)
       (on_exception env)).

End Revised.

(** An instance of [toLowerCase] for concrete runs: it lowers the ASCII
    capitals and leaves every other code unit alone, which is what the
    built-in does on ASCII, kana and kanji text. *)
Definition lower_ascii (s : jsstring) : jsstring :=
  map (fun u => if (65 <=? u)%N && (u <=? 90)%N then (u + 32)%N else u) s.

(** ** The earlier handler, [src/api/hantei.js] *)

Module Legacy.

(** A malformed payload is caught by the one [catch] of [callApi]. *)
Definition to_object (outcome : FetchOutcome) : JsonValue :=
  match outcome with
  | FetchRejects => JsonObject (error_object msg_fatal)
  | HttpError status => JsonObject (error_object (msg_http status))
  | NoContent blockReason =>
    JsonObject (error_object (msg_blocked ++ or_str blockReason unknown_reason))
  | Malformed => JsonObject (error_object msg_fatal)
  | Json value => value
  end.

Definition callApi (net : Network) (prompt : Prompt) : M JsonValue :=
  emit (Fetch prompt) ;;
  ret (to_object (net prompt)).

(** One guard on [tweetText]; there is no length limit. *)
Definition validate (tweetText : jsval) : jsstring + jsstring :=
  if negb (truthy tweetText) || negb (typeof_string tweetText)
     || trims_to_empty tweetText
  then inl msg_no_text
  else match tweetText with
       | JString s => inr s
       | _ => inl msg_no_text
       end.

(** The keyword tests run on the text as sent. *)
Definition pre_adjustment (tweetText : jsstring) (aiResult : ApiObject)
    : Primary :=
  let text := tweetText in
  primary_scores text aiResult.

(** The adjustment is added and nothing else is done to the sum. *)
Definition scoring (tweetText : jsstring) (aiResult adjustments : ApiObject)
    : Scores :=
  let p := pre_adjustment tweetText aiResult in
  {| bengoScore :=
       score_add (bengoPrimaryScore p) (or_num (bengo_adjust adjustments) 0);
     houmuScore :=
       score_add (houmuPrimaryScore p) (or_num (houmu_adjust adjustments) 0);
     oneeScore :=
       score_add (oneePrimaryScore p) (or_num (onee_adjust adjustments) 0) |}.

Definition absorb_comments (comments : ApiObject) : ApiObject :=
  if truthy_field (error comments)
  then comment_object (paren_open ++ to_text (error comments) ++ paren_close)
         doujou doujou
  else comments.

Definition pipeline (net : Network) (tweetText : jsstring) : M Reply :=
  aiResult <- callApi net (riskAnalysisPrompt tweetText) ;;
  aiResult <- properties aiResult ;;
  if truthy_field (error aiResult) then respond 500 (ObjectBody aiResult) else
  adjustments <- callApi net (adjustmentPrompt tweetText) ;;
  adjustments <- properties adjustments ;;
  let adjustments := absorb_adjustments adjustments in
  let scores := scoring tweetText aiResult adjustments in
  comments <-
    callApi net (make_commentPrompt tweetText aiResult (hanteiFlags scores)) ;;
  comments <- properties comments ;;
  let comments := absorb_comments comments in
  respond 200 (FinalBody (finalResponse scores comments (reason aiResult))).

Definition handler (env : Env) (net : Network) (req : Request)
    : list Event * Reply :=
  run
    (if negb (JsString.eqb (method req) POST)
     then respond 405 (MessageBody method_not_allowed) else
     emit ReadApiKey ;;
     if negb (truthy_str (GEMINI_API_KEY env))
     then respond 500 (ErrorBody msg_no_key) else
     tweetText <- destructure req ;;
     match validate tweetText with
     | inl message => respond 400 (ErrorBody message)
     | inr tweetText => pipeline net tweetText
     end).

End Legacy.

Local Close Scope handler_scope.

(** ** Vocabulary of the specification *)

(** The order oppose < neutral < favor. *)
Definition rank (h : Hantei) : Z :=
  match h with
  | Hantai => 0
  | Chuuritsu => 1
  | Sansei => 2
  end.

(** Favor counts 1, neutral one half, oppose nothing. *)
Definition weight (h : Hantei) : Q :=
  match h with
  | Sansei => 1%Q
  | Chuuritsu => (1 # 2)%Q
  | Hantai => 0%Q
  end.

(** The three adjustments are zero: each is absent, null or the number 0. *)
Definition all_zero (adjustments : ApiObject) : bool :=
  forallb (fun f => or_num f 0 =? 0)
    [bengo_adjust adjustments; houmu_adjust adjustments;
     onee_adjust adjustments].

(** The call made with [prompt] comes back as an error object. *)
Definition returns_error (net : Network) (prompt : Prompt) : bool :=
  match to_object (net prompt) with
  | JsonObject obj => truthy_field (error obj)
  | JsonNull => false
  end.

(** The score is a number and is at least [k]. *)
Definition score_at_least (s : Score) (k : Z) : Prop :=
  exists z, s = Num z /\ k <= z.

(** The score does not reach [k]: it is a number below [k], or not a
    number. *)
Definition score_short_of (s : Score) (k : Z) : Prop :=
  forall z, s = Num z -> z < k.

(** The score is a number between [lo] and [hi]. *)
Definition score_in (s : Score) (lo hi : Z) : Prop :=
  exists z, s = Num z /\ lo <= z <= hi.

(** Both scores are numbers and the first is at most the second. *)
Definition score_le (a b : Score) : Prop :=
  exists x y, a = Num x /\ b = Num y /\ x <= y.

(** The level names a property inherited from [Object.prototype]. *)
Definition inherited (level : Field jsstring) : bool :=
  inherited_key (to_text level).

(** ** Sample inputs *)

Definition env_ok : Env :=
  {| GEMINI_API_KEY := Some (js "secret"); NODE_ENV := None |}.

Definition post (tweetText : jsstring) : Request :=
  {| method := POST; body := Some (JString tweetText) |}.

Definition get_request : Request :=
  {| method := js "GET"; body := None |}.

Definition text_plain : jsstring := Eval vm_compute in js "今日はいい天気ですね".
Definition text_shine : jsstring := Eval vm_compute in js "お前なんか死ね".
Definition text_korosu : jsstring := Eval vm_compute in js "殺すぞ".
Definition text_korosu_shine : jsstring := Eval vm_compute in js "殺す、死ね".

Definition risk_low : ApiObject := risk_object tei tei tei (js "軽微").
Definition risk_high : ApiObject := risk_object kou chuu kou (js "脅迫的").

(** A risk assessment whose legal level is the word "constructor". *)
Definition risk_constructor : ApiObject :=
  risk_object (js "constructor") tei tei (js "軽微").

Definition some_comments : ApiObject :=
  comment_object (js "争点あり") (js "静観") (js "許せないわ").

(** Upstream behaviours: all three calls succeed; only the first fails;
    only the second fails; only the third fails; the second fails and the
    third replies with the text [null]. *)
Definition net_ok (p : Prompt) : FetchOutcome :=
  match p with
  | riskAnalysisPrompt _ => Json (JsonObject risk_low)
  | adjustmentPrompt _ => Json (JsonObject (adjust_object 2 (-1) 1))
  | commentPrompt _ _ _ _ _ _ => Json (JsonObject some_comments)
  end.





Definition net_first_null (p : Prompt) : FetchOutcome :=
  match p with
  | riskAnalysisPrompt _ => Json JsonNull
  | _ => net_ok p
  end.

(** A string of 1001 code units. *)
Definition long_text : jsstring := repeat 97%N 1001.

(** ** Vocabulary for the remaining properties *)

(** The five code units [escapeForPrompt] rewrites: backslash, double
    quote, line feed, carriage return, tab. *)
Definition special (u : N) : bool :=
  ((u =? 92) || (u =? 34) || (u =? 10) || (u =? 13) || (u =? 9))%N.

(** What one code unit becomes once the five passes have run. *)
Definition escape_unit (u : N) : jsstring :=
  if (u =? 92)%N then [92; 92]%N
  else if (u =? 34)%N then [92; 34]%N
  else if (u =? 10)%N then [92; 110]%N
  else if (u =? 13)%N then [92; 114]%N
  else if (u =? 9)%N then [92; 116]%N
  else [u].

(** The second code unit of an escape: backslash, quote, n, r, t. *)
Definition escape_letter (u : N) : bool :=
  ((u =? 92) || (u =? 34) || (u =? 110) || (u =? 114) || (u =? 116))%N.

(** A text in which every backslash opens a two-unit escape and no quote,
    line feed, carriage return or tab stands outside an escape. *)
Fixpoint well_escaped (s : jsstring) : bool :=
  match s with
  | [] => true
  | u :: r =>
    if (u =? 92)%N then
      match r with
      | x :: r' => escape_letter x && well_escaped r'
      | [] => false
      end
    else negb (special u) && well_escaped r
  end.

(** The prompts sent upstream, in order. *)
Fixpoint fetches (t : list Event) : list Prompt :=
  match t with
  | [] => []
  | Fetch p :: t' => p :: fetches t'
  | _ :: t' => fetches t'
  end.

(** The text substituted into a prompt. *)
Definition prompt_text (p : Prompt) : jsstring :=
  match p with
  | riskAnalysisPrompt text => text
  | adjustmentPrompt text => text
  | commentPrompt text _ _ _ _ _ => text
  end.

(** The order of the three display classes: miokuri < ware < kettei. *)
Definition class_rank (c : jsstring) : Z :=
  if JsString.eqb c class_kettei then 2
  else if JsString.eqb c class_ware then 1
  else 0.

(** The collective verdict computed from three final scores. *)
Definition gougi_of (s : Scores) : Gougi :=
  gougi (bengoScore s) (gougiScore (hanteiFlags s)).

(** The opening every display prefix shares. *)
Definition hantei_open : jsstring := Eval vm_compute in js "【判定：".

(** The second score is not lower than the first: where both are numbers
    the second is at least the first, and the second is a number whenever
    the first is. *)
Definition score_not_lowered (a b : Score) : Prop :=
  (b = NotNumber -> a = NotNumber) /\
  (forall x y, a = Num x -> b = Num y -> x <= y).

(** Componentwise order on the primary scores. *)
Definition primary_le (p q : Primary) : Prop :=
  score_not_lowered (bengoPrimaryScore p) (bengoPrimaryScore q) /\
  score_not_lowered (houmuPrimaryScore p) (houmuPrimaryScore q) /\
  score_not_lowered (oneePrimaryScore p) (oneePrimaryScore q).

(** The two scores are both numbers no more than [d] apart, or neither is
    a number. *)
Definition moved_at_most (s z : Score) (d : Z) : Prop :=
  (s = NotNumber /\ z = NotNumber) \/
  (exists a b, s = Num a /\ z = Num b /\ Z.abs (a - b) <= d).

(** The score is the number 0, or not a number. *)
Definition zero_or_not_number (s : Score) : Prop :=
  s = Num 0 \/ s = NotNumber.

(** Each adjustment, as the handler reads it, lies in the nominal range. *)
Definition nominal (adjustments : ApiObject) : Prop :=
  -2 <= or_num (bengo_adjust adjustments) 0 <= 2 /\
  -2 <= or_num (houmu_adjust adjustments) 0 <= 2 /\
  -2 <= or_num (onee_adjust adjustments) 0 <= 2.

(** The reply to a prompt is the text [null]. *)
Definition replies_null (net : Network) (prompt : Prompt) : bool :=
  match to_object (net prompt) with
  | JsonNull => true
  | JsonObject _ => false
  end.

(** More sample inputs. *)
Definition env_no_key : Env :=
  {| GEMINI_API_KEY := None; NODE_ENV := None |}.

Definition env_development : Env :=
  {| GEMINI_API_KEY := Some (js "secret"); NODE_ENV := Some development |}.

Definition post_without_body : Request :=
  {| method := POST; body := None |}.

Definition post_value (v : jsval) : Request :=
  {| method := POST; body := Some v |}.

Definition text_quoted : jsstring :=
  [97; 34; 98; 92; 10; 99; 9; 13]%N.

(** The words of each keyword pattern; rule 6 has none. *)
Definition words_of (r : Rule) : list jsstring :=
  match r with
  | Rule1 => words1
  | Rule2 => words2
  | Rule3 => words3
  | Rule4 => words4
  | Rule5 => words5
  | Rule6 => []
  end.

(** Adjustments that are far outside the nominal range. *)
Definition adjust_minus_fifty : ApiObject := adjust_object (-50) (-50) (-50).

(** A text that matches the five keyword patterns at once. *)
Definition text_all_rules : jsstring :=
  Eval vm_compute in js "殺す 死ね 違法 バカ 倒産".

(** * Properties *)

(** ** JavaScript string facts *)

Lemma jsstring_eqb_eq (a b : jsstring) : JsString.eqb a b = true <-> a = b.
Proof.
  revert b. induction a as [|x a IH]; intros [|y b]; simpl;
    try (split; [discriminate | congruence]); [tauto|].
  rewrite andb_true_iff, N.eqb_eq, IH. split.
  - intros [-> ->]. reflexivity.
  - intros H. injection H as -> ->. tauto.
Qed.

Lemma jsstring_eqb_neq (a b : jsstring) : a <> b -> JsString.eqb a b = false.
Proof.
  intros H. destruct (JsString.eqb a b) eqn:E; [|reflexivity].
  apply jsstring_eqb_eq in E. contradiction.
Qed.

Lemma trim_start_spaces (s : jsstring) :
  trim_start s = [] <-> forallb is_space s = true.
Proof.
  induction s as [|u s IH]; simpl; [tauto|].
  destruct (is_space u); simpl; [exact IH|].
  split; discriminate.
Qed.

(** [trim] leaves nothing exactly when every code unit is white space. *)
Lemma trim_empty_iff (s : jsstring) :
  trim s = [] <-> forallb is_space s = true.
Proof.
  unfold trim, trim_end. split.
  - intros H. apply trim_start_spaces.
    destruct (trim_start s) as [|u t] eqn:E; [reflexivity|].
    apply (f_equal (@rev N)) in H. rewrite rev_involutive in H. simpl in H.
    apply trim_start_spaces in H. rewrite forallb_forall in H.
    assert (Hu : is_space u = true).
    { apply H. apply in_or_app. right. left. reflexivity. }
    clear H. exfalso. revert E Hu. clear. induction s as [|v s IH]; simpl.
    + discriminate.
    + destruct (is_space v) eqn:Ev; [exact IH|].
      intros [= -> _]. congruence.
  - intros H. apply trim_start_spaces in H. rewrite H. reflexivity.
Qed.

(** ** Scores *)

Lemma score_geb_at_least (s : Score) (k : Z) :
  score_geb s k = true <-> score_at_least s k.
Proof.
  unfold score_at_least. destruct s as [z|]; simpl.
  - destruct (Z.geb_spec z k) as [Hk|Hk]; split.
    + intros _. exists z. split; [reflexivity|lia].
    + reflexivity.
    + discriminate.
    + intros (y & [= <-] & Hy). lia.
  - split; [discriminate|]. intros (z & Hz & _). discriminate Hz.
Qed.

Lemma score_geb_short_of (s : Score) (k : Z) :
  score_geb s k = false <-> score_short_of s k.
Proof.
  unfold score_short_of. destruct s as [z|]; simpl.
  - destruct (Z.geb_spec z k) as [Hk|Hk]; split.
    + discriminate.
    + intros Hall. specialize (Hall z eq_refl). lia.
    + intros _ y [= <-]. lia.
    + reflexivity.
  - split; [intros _ z Hz; discriminate Hz|reflexivity].
Qed.

Lemma clamp_range (value : Score) :
  clamp value 0 10 = NotNumber \/ score_in (clamp value 0 10) 0 10.
Proof.
  destruct value as [z|]; [right|left; reflexivity].
  eexists. split; [reflexivity|]. lia.
Qed.

Lemma clamp_id (z : Z) : 0 <= z <= 10 -> clamp (Num z) 0 10 = Num z.
Proof. intros H. simpl. f_equal. lia. Qed.

(** The three own keys, and what every other key gives. *)
Lemma base_score_cases (level : Field jsstring) :
  (to_text level = kou /\ base_score level = Num 4) \/
  (to_text level = chuu /\ base_score level = Num 2) \/
  (to_text level = tei /\ base_score level = Num 1) \/
  (to_text level <> kou /\ to_text level <> chuu /\ to_text level <> tei /\
   ((inherited level = true /\ base_score level = NotNumber) \/
    (inherited level = false /\ base_score level = Num 1))).
Proof.
  unfold base_score, inherited, riskToScore_get, riskToScore.
  destruct (decide (to_text level = kou)) as [E|Nk].
  { left. rewrite E. split; reflexivity. }
  destruct (decide (to_text level = chuu)) as [E|Nc].
  { right; left. rewrite E. split; reflexivity. }
  destruct (decide (to_text level = tei)) as [E|Nt].
  { right; right; left. rewrite E. split; reflexivity. }
  right; right; right. repeat split; try assumption.
  rewrite !lookup_insert_ne by congruence. rewrite lookup_empty.
  destruct (inherited_key (to_text level)); [left|right]; split; reflexivity.
Qed.

Lemma inherited_not_own (level : Field jsstring) :
  inherited level = true ->
  to_text level <> kou /\ to_text level <> chuu /\ to_text level <> tei.
Proof.
  intros H. repeat split; intros E; unfold inherited in H; rewrite E in H;
    discriminate H.
Qed.

(** The base score is a number exactly when the level does not name an
    inherited property, and then it is 4, 2 or 1. *)
Lemma base_score_number (level : Field jsstring) :
  (inherited level = true /\ base_score level = NotNumber) \/
  (inherited level = false /\
   exists z, base_score level = Num z /\ (z = 4 \/ z = 2 \/ z = 1)).
Proof.
  destruct (base_score_cases level)
    as [(E & H)|[(E & H)|[(E & H)|(_ & _ & _ & [(I & H)|(I & H)])]]].
  - right. split; [unfold inherited; rewrite E; reflexivity|].
    exists 4. split; [assumption|lia].
  - right. split; [unfold inherited; rewrite E; reflexivity|].
    exists 2. split; [assumption|lia].
  - right. split; [unfold inherited; rewrite E; reflexivity|].
    exists 1. split; [assumption|lia].
  - left. split; assumption.
  - right. split; [assumption|]. exists 1. split; [assumption|lia].
Qed.

(** C1, earlier handler: the text "殺す、死ね" with all levels low and zero
    adjustments scores 13, 7 and 15; there is no clamp and two of the three
    final scores leave the range [0, 10]. *)
Theorem legacy_scores_out_of_range :
  let s := Legacy.scoring text_korosu_shine risk_low zero_adjustments in
  bengoScore s = Num 13 /\ houmuScore s = Num 7 /\ oneeScore s = Num 15 /\
  ~ score_in (bengoScore s) 0 10 /\ ~ score_in (oneeScore s) 0 10.
Proof.
  vm_compute. repeat split; try reflexivity;
    intros (z & [= <-] & _ & H); apply H; reflexivity.
Qed.

(** ** Verdict thresholds *)

Lemma getHantei_cases (score : Score) (sansei chuuritsu : Z) :
  chuuritsu <= sansei ->
  (getHantei score sansei chuuritsu = Sansei <-> score_at_least score sansei) /\
  (getHantei score sansei chuuritsu = Chuuritsu <->
   score_at_least score chuuritsu /\ score_short_of score sansei) /\
  (getHantei score sansei chuuritsu = Hantai <-> score_short_of score chuuritsu).
Proof.
  intros Hle. unfold getHantei, score_at_least, score_short_of.
  destruct score as [z|]; simpl.
  - destruct (Z.geb_spec z sansei); [|destruct (Z.geb_spec z chuuritsu)];
      repeat split; intros; try discriminate; try reflexivity;
      repeat match goal with
             | H : exists _, _ |- _ => destruct H as (? & [= <-] & ?)
             | H : _ /\ _ |- _ => destruct H
             | H : forall y, Num ?z = Num y -> _ |- _ => specialize (H z eq_refl)
             | H : Num _ = Num _ |- _ => injection H as <-
             end; try lia; try (eexists; split; [reflexivity|lia]).
  - repeat split; intros; try discriminate; try reflexivity;
      repeat match goal with
             | H : exists _, _ |- _ => destruct H as (? & ? & ?)
             | H : _ /\ _ |- _ => destruct H
             end; discriminate.
Qed.

(** C6: the lawyer and the commentator are in favour from 5, neutral from 3
    and opposed below; the legal department is in favour from 5, neutral
    at 4 and opposed below.  A score that is not a number reaches no
    threshold and gives the opposed verdict. *)
Theorem verdict_thresholds (s : Scores) :
  let f := hanteiFlags s in
  ((HanteiFlags.bengo f = Sansei <-> score_at_least (bengoScore s) 5) /\
   (HanteiFlags.bengo f = Chuuritsu <->
    score_at_least (bengoScore s) 3 /\ score_short_of (bengoScore s) 5) /\
   (HanteiFlags.bengo f = Hantai <-> score_short_of (bengoScore s) 3)) /\
  ((HanteiFlags.houmu f = Sansei <-> score_at_least (houmuScore s) 5) /\
   (HanteiFlags.houmu f = Chuuritsu <->
    score_at_least (houmuScore s) 4 /\ score_short_of (houmuScore s) 5) /\
   (HanteiFlags.houmu f = Hantai <-> score_short_of (houmuScore s) 4)) /\
  ((HanteiFlags.onee f = Sansei <-> score_at_least (oneeScore s) 5) /\
   (HanteiFlags.onee f = Chuuritsu <->
    score_at_least (oneeScore s) 3 /\ score_short_of (oneeScore s) 5) /\
   (HanteiFlags.onee f = Hantai <-> score_short_of (oneeScore s) 3)).
Proof. simpl. repeat apply conj; apply getHantei_cases; lia. Qed.

Lemma getHantei_monotone (s1 s2 : Score) (sansei chuuritsu : Z) :
  score_le s1 s2 ->
  rank (getHantei s1 sansei chuuritsu) <= rank (getHantei s2 sansei chuuritsu).
Proof.
  intros (x & y & -> & -> & Hle). unfold getHantei. simpl.
  destruct (Z.geb_spec x sansei), (Z.geb_spec y sansei),
    (Z.geb_spec x chuuritsu), (Z.geb_spec y chuuritsu); simpl; lia.
Qed.

(** C9: raising a score never lowers the verdict, for each persona (and
    for any pair of thresholds). *)
Theorem verdict_monotone (a b : Scores) :
  score_le (bengoScore a) (bengoScore b) ->
  score_le (houmuScore a) (houmuScore b) ->
  score_le (oneeScore a) (oneeScore b) ->
  rank (HanteiFlags.bengo (hanteiFlags a)) <= rank (HanteiFlags.bengo (hanteiFlags b)) /\
  rank (HanteiFlags.houmu (hanteiFlags a)) <= rank (HanteiFlags.houmu (hanteiFlags b)) /\
  rank (HanteiFlags.onee (hanteiFlags a)) <= rank (HanteiFlags.onee (hanteiFlags b)).
Proof.
  intros Hb Hh Ho. simpl. repeat split; apply getHantei_monotone; assumption.
Qed.

Lemma score_le_num (x y : Z) : x <= y -> score_le (Num x) (Num y).
Proof. intros H. exists x, y. repeat split. exact H. Qed.

Lemma verdict_monotone_witness :
  rank (HanteiFlags.bengo (hanteiFlags {| bengoScore := Num 2; houmuScore := Num 4; oneeScore := Num 0 |}))
  <= rank (HanteiFlags.bengo (hanteiFlags {| bengoScore := Num 3; houmuScore := Num 5; oneeScore := Num 9 |})) /\
  rank (HanteiFlags.houmu (hanteiFlags {| bengoScore := Num 2; houmuScore := Num 4; oneeScore := Num 0 |}))
  <= rank (HanteiFlags.houmu (hanteiFlags {| bengoScore := Num 3; houmuScore := Num 5; oneeScore := Num 9 |})) /\
  rank (HanteiFlags.onee (hanteiFlags {| bengoScore := Num 2; houmuScore := Num 4; oneeScore := Num 0 |}))
  <= rank (HanteiFlags.onee (hanteiFlags {| bengoScore := Num 3; houmuScore := Num 5; oneeScore := Num 9 |})).
Proof.
  apply (verdict_monotone
           {| bengoScore := Num 2; houmuScore := Num 4; oneeScore := Num 0 |}
           {| bengoScore := Num 3; houmuScore := Num 5; oneeScore := Num 9 |});
    apply score_le_num; lia.
Defined.

(** ** Collective verdict *)

Lemma gougiScore_weight (flags : HanteiFlags.t) :
  (gougiScore flags ==
   weight (HanteiFlags.bengo flags) + weight (HanteiFlags.houmu flags)
   + weight (HanteiFlags.onee flags))%Q.
Proof. destruct flags as [[] [] []]; reflexivity. Qed.

Ltac q_arith :=
  unfold Qlt, Qle in *; simpl in *; lia.

(** C5: the tally is the sum of the three weights; it selects the label
    and the class; and the lawyer's override replaces them exactly when the
    lawyer's score is at least 7 and the tally is below 2. *)
Theorem collective_verdict (bengoScore : Score) (flags : HanteiFlags.t) :
  let sum := gougiScore flags in
  let g := gougi bengoScore sum in
  (sum == weight (HanteiFlags.bengo flags) + weight (HanteiFlags.houmu flags)
          + weight (HanteiFlags.onee flags))%Q /\
  (score_at_least bengoScore 7 /\ (sum < 2)%Q ->
   g = {| gougiResult := gougi_bousou; gougiClass := class_kettei |}) /\
  (~ (score_at_least bengoScore 7 /\ (sum < 2)%Q) ->
   ((2 <= sum)%Q ->
    g = {| gougiResult := gougi_dai; gougiClass := class_kettei |}) /\
   ((1 <= sum)%Q /\ (sum < 2)%Q ->
    g = {| gougiResult := gougi_ware; gougiClass := class_ware |}) /\
   ((sum < 1)%Q ->
    g = {| gougiResult := gougi_miokuri; gougiClass := class_miokuri |})) /\
  (gougiResult g = gougi_bousou <-> score_at_least bengoScore 7 /\ (sum < 2)%Q).
Proof.
  intros sum g. split; [apply gougiScore_weight|].
  subst sum g. unfold gougi.
  pose proof (score_geb_at_least bengoScore 7) as Hge.
  destruct (score_geb bengoScore 7);
    [assert (Hb : score_at_least bengoScore 7) by (apply Hge; reflexivity)
    |assert (Hb : ~ score_at_least bengoScore 7)
       by (intros Hb; apply Hge in Hb; discriminate Hb)];
    clear Hge; destruct flags as [[] [] []]; cbn.
  all: repeat split; intros; try reflexivity; try discriminate;
    try assumption; try q_arith.
  all: exfalso;
    repeat match goal with
           | H : _ /\ _ |- _ => destruct H
           | H : ~ (_ /\ _) |- _ => apply H; split; [assumption|]
           end; try contradiction; q_arith.
Qed.

(** ** The six rules *)

Lemma primary_scores_unfold (text : jsstring) (aiResult : ApiObject) :
  primary_scores text aiResult =
  step text aiResult
    (step text aiResult
      (step text aiResult
        (step text aiResult
          (step text aiResult
            (step text aiResult (initial_primary aiResult) Rule1)
            Rule2) Rule3) Rule4) Rule5) Rule6.
Proof. reflexivity. Qed.

Lemma rule6_iff (text : jsstring) (aiResult : ApiObject) :
  fires Rule6 text aiResult = true <-> emotional_discomfort aiResult = Has kou.
Proof.
  simpl. destruct (emotional_discomfort aiResult) as [| |level].
  - split; discriminate.
  - split; discriminate.
  - rewrite jsstring_eqb_eq. split; congruence.
Qed.

(** The primary scores written out: the base score (or the 9 and 10 of
    rule 1) plus the additions of the rules that fire. *)
Lemma primary_formula (text : jsstring) (aiResult : ApiObject) :
  let f := fun r => fires r text aiResult in
  let p := primary_scores text aiResult in
  bengoPrimaryScore p =
    score_add (if f Rule1 then Num 9 else base_score (legal_risk aiResult))
      ((if f Rule2 then 4 else 0) + (if f Rule3 then 3 else 0)
       + (if f Rule4 then 2 else 0) + (if f Rule5 then 2 else 0)) /\
  houmuPrimaryScore p =
    score_add (base_score (corporate_risk aiResult))
      ((if f Rule1 then 4 else 0) + (if f Rule2 then 2 else 0)
       + (if f Rule3 then 3 else 0) + (if f Rule5 then 4 else 0)) /\
  oneePrimaryScore p =
    score_add (if f Rule1 then Num 10
               else base_score (emotional_discomfort aiResult))
      ((if f Rule2 then 5 else 0) + (if f Rule4 then 3 else 0)
       + (if f Rule6 then 2 else 0)).
Proof.
  intros f p. subst f p. rewrite primary_scores_unfold. unfold step.
  destruct (fires Rule1 text aiResult), (fires Rule2 text aiResult),
    (fires Rule3 text aiResult), (fires Rule4 text aiResult),
    (fires Rule5 text aiResult), (fires Rule6 text aiResult);
    cbn [effect initial_primary bengoPrimaryScore houmuPrimaryScore
         oneePrimaryScore];
    destruct (base_score (legal_risk aiResult)),
      (base_score (corporate_risk aiResult)),
      (base_score (emotional_discomfort aiResult));
    simpl; repeat split; f_equal; lia.
Qed.

(** After rule 1 has fired the lawyer's and the commentator's primary
    scores no longer depend on the base scores: they are 9 and 10 plus
    what the later rules add. *)
Lemma rule1_then_later_rules (text : jsstring) (aiResult : ApiObject) :
  fires Rule1 text aiResult = true ->
  let p := primary_scores text aiResult in
  bengoPrimaryScore p =
    Num (9 + (if fires Rule2 text aiResult then 4 else 0)
           + (if fires Rule3 text aiResult then 3 else 0)
           + (if fires Rule4 text aiResult then 2 else 0)
           + (if fires Rule5 text aiResult then 2 else 0)) /\
  oneePrimaryScore p =
    Num (10 + (if fires Rule2 text aiResult then 5 else 0)
            + (if fires Rule4 text aiResult then 3 else 0)
            + (if fires Rule6 text aiResult then 2 else 0)).
Proof.
  intros H1 p. destruct (primary_formula text aiResult) as (Hb & _ & Ho).
  cbv zeta in Hb, Ho. rewrite H1 in Hb, Ho. subst p. rewrite Hb, Ho.
  simpl. split; f_equal; lia.
Qed.

(** When none of the five keyword patterns matches, only rule 6 can move a
    primary score. *)
Lemma no_keyword_primary (text : jsstring) (aiResult : ApiObject) :
  (forall r, r <> Rule6 -> fires r text aiResult = false) ->
  let p := primary_scores text aiResult in
  bengoPrimaryScore p = base_score (legal_risk aiResult) /\
  houmuPrimaryScore p = base_score (corporate_risk aiResult) /\
  oneePrimaryScore p =
    score_add (base_score (emotional_discomfort aiResult))
      (if fires Rule6 text aiResult then 2 else 0).
Proof.
  intros H p. subst p. rewrite primary_scores_unfold. unfold step.
  rewrite (H Rule1), (H Rule2), (H Rule3), (H Rule4), (H Rule5) by discriminate.
  destruct (fires Rule6 text aiResult); simpl; repeat split;
    destruct (base_score (emotional_discomfort aiResult)); simpl;
    f_equal; lia.
Qed.

Lemma all_zero_fields (adjustments : ApiObject) :
  all_zero adjustments = true ->
  or_num (bengo_adjust adjustments) 0 = 0 /\
  or_num (houmu_adjust adjustments) 0 = 0 /\
  or_num (onee_adjust adjustments) 0 = 0.
Proof.
  unfold all_zero. simpl. rewrite !andb_true_iff, !Z.eqb_eq. tauto.
Qed.

Lemma score_add_0 (s : Score) : score_add s 0 = s.
Proof. destruct s; simpl; [f_equal; lia|reflexivity]. Qed.

(** C2, as the claim has it, fails: rule 1 leaves 9 and 10, but the rules
    after it still add to them.  The text "殺す、死ね" matches rules 1 and 2
    and reaches 13 and 15 before any adjustment. *)
Lemma rule1_scores_not_final :
  ~ (forall (toLowerCase : jsstring -> jsstring) (tweetText : jsstring)
       (aiResult : ApiObject),
       fires Rule1 (toLowerCase tweetText) aiResult = true ->
       let p := pre_adjustment toLowerCase tweetText aiResult in
       bengoPrimaryScore p = Num 9 /\ oneePrimaryScore p = Num 10).
Proof.
  intros H.
  destruct (H lower_ascii text_korosu_shine risk_low eq_refl) as [Hb _].
  vm_compute in Hb. discriminate Hb.
Qed.

(** C2, amended: when rule 1 matches, the pre-adjustment scores of the
    lawyer and of the commentator are 9 and 10 plus the additions of the
    later rules that fire, whatever the base scores; they are exactly 9 and
    10 when no later rule fires.  With [toLowerCase] the identity this is
    the earlier handler. *)
Theorem rule1_pre_adjustment (toLowerCase : jsstring -> jsstring)
    (tweetText : jsstring) (aiResult : ApiObject) :
  let text := toLowerCase tweetText in
  let p := pre_adjustment toLowerCase tweetText aiResult in
  fires Rule1 text aiResult = true ->
  (bengoPrimaryScore p =
     Num (9 + (if fires Rule2 text aiResult then 4 else 0)
            + (if fires Rule3 text aiResult then 3 else 0)
            + (if fires Rule4 text aiResult then 2 else 0)
            + (if fires Rule5 text aiResult then 2 else 0)) /\
   oneePrimaryScore p =
     Num (10 + (if fires Rule2 text aiResult then 5 else 0)
             + (if fires Rule4 text aiResult then 3 else 0)
             + (if fires Rule6 text aiResult then 2 else 0))) /\
  ((forall r, r <> Rule1 -> fires r text aiResult = false) ->
   bengoPrimaryScore p = Num 9 /\ oneePrimaryScore p = Num 10).
Proof.
  intros text p H1. subst p text. unfold pre_adjustment.
  pose proof (rule1_then_later_rules _ _ H1) as [Hb Ho].
  cbv zeta in Hb, Ho. split; [split; assumption|].
  intros Hnone. rewrite Hb, Ho.
  rewrite (Hnone Rule2), (Hnone Rule3), (Hnone Rule4), (Hnone Rule5),
    (Hnone Rule6) by discriminate.
  split; reflexivity.
Qed.

Lemma rule1_pre_adjustment_witness :
  bengoPrimaryScore (pre_adjustment lower_ascii text_korosu risk_low) = Num 9 /\
  oneePrimaryScore (pre_adjustment lower_ascii text_korosu risk_low) = Num 10.
Proof.
  refine (proj2 (rule1_pre_adjustment lower_ascii text_korosu risk_low _) _).
  - reflexivity.
  - intros r Hr. destruct r; try reflexivity. contradiction.
Defined.

Lemma legacy_pre_adjustment_id (tweetText : jsstring) (aiResult : ApiObject) :
  Legacy.pre_adjustment tweetText aiResult =
  pre_adjustment (fun s => s) tweetText aiResult.
Proof. reflexivity. Qed.

(** C7, at a level the table does not know: the word "constructor" is
    none of the three levels, no rule fires on the text and the adjustments
    are zero, yet the base score is not 1: the lookup finds the member every
    object inherits, [|| 1] keeps it, the sum is not a number in either
    revision and the lawyer's verdict falls to opposed. *)
Theorem inherited_level_not_default :
  let aiResult := risk_constructor in
  let level := legal_risk aiResult in
  (to_text level <> kou /\ to_text level <> chuu /\ to_text level <> tei) /\
  (forall r, fires r (lower_ascii text_plain) aiResult = false) /\
  all_zero zero_adjustments = true /\
  base_score level = NotNumber /\
  base_score level <> Num 1 /\
  bengoScore (scoring lower_ascii text_plain aiResult zero_adjustments)
    = NotNumber /\
  bengoScore (Legacy.scoring text_plain aiResult zero_adjustments)
    = NotNumber /\
  HanteiFlags.bengo
    (hanteiFlags (scoring lower_ascii text_plain aiResult zero_adjustments))
    = Hantai.
Proof.
  cbv zeta. split; [repeat split; discriminate|]. split.
  { intros r. destruct r; reflexivity. }
  repeat split; try reflexivity. discriminate.
Qed.

(** X29: for levels that do not name an inherited property the table is
    as the handler intends it, 4, 2 and 1 for the three levels and 1 for any
    other value; and when none of the five keyword patterns matches and
    the adjustments are zero, the lawyer's and the legal department's
    final scores are their base scores, and the commentator's is the
    base score when the emotional discomfort is not high and 6 when it is.
    The same holds in the earlier handler. *)
Theorem base_score_mapping :
  (base_score (Has kou) = Num 4 /\ base_score (Has chuu) = Num 2 /\
   base_score (Has tei) = Num 1 /\
   (forall level : Field jsstring,
      to_text level <> kou -> to_text level <> chuu -> to_text level <> tei ->
      inherited level = false ->
      base_score level = Num 1)) /\
  (forall (toLowerCase : jsstring -> jsstring) (tweetText : jsstring)
     (aiResult adjustments : ApiObject),
     (forall r, r <> Rule6 -> fires r (toLowerCase tweetText) aiResult = false) ->
     all_zero adjustments = true ->
     let s := scoring toLowerCase tweetText aiResult adjustments in
     (inherited (legal_risk aiResult) = false ->
      bengoScore s = base_score (legal_risk aiResult)) /\
     (inherited (corporate_risk aiResult) = false ->
      houmuScore s = base_score (corporate_risk aiResult)) /\
     (inherited (emotional_discomfort aiResult) = false ->
      emotional_discomfort aiResult <> Has kou ->
      oneeScore s = base_score (emotional_discomfort aiResult)) /\
     (emotional_discomfort aiResult = Has kou -> oneeScore s = Num 6)) /\
  (forall (tweetText : jsstring) (aiResult adjustments : ApiObject),
     (forall r, r <> Rule6 -> fires r tweetText aiResult = false) ->
     all_zero adjustments = true ->
     let s := Legacy.scoring tweetText aiResult adjustments in
     (inherited (legal_risk aiResult) = false ->
      bengoScore s = base_score (legal_risk aiResult)) /\
     (inherited (corporate_risk aiResult) = false ->
      houmuScore s = base_score (corporate_risk aiResult)) /\
     (inherited (emotional_discomfort aiResult) = false ->
      emotional_discomfort aiResult <> Has kou ->
      oneeScore s = base_score (emotional_discomfort aiResult)) /\
     (emotional_discomfort aiResult = Has kou -> oneeScore s = Num 6)).
Proof.
  split.
  { repeat split; try reflexivity. intros level Hk Hc Ht Hi.
    destruct (base_score_cases level)
      as [(E & _)|[(E & _)|[(E & _)|(_ & _ & _ & [(I & _)|(_ & H)])]]];
      congruence. }
  split.
  - intros toLowerCase tweetText aiResult adjustments Hnone Hzero s.
    destruct (all_zero_fields _ Hzero) as (Zb & Zh & Zo).
    destruct (no_keyword_primary _ _ Hnone) as (Pb & Ph & Po).
    subst s. unfold scoring, pre_adjustment.
    cbn [bengoScore houmuScore oneeScore].
    rewrite Zb, Zh, Zo, Pb, Ph, Po, !score_add_0.
    repeat split.
    + intros Hi. destruct (base_score_number (legal_risk aiResult))
        as [(I & _)|(_ & z & -> & Hz)]; [congruence|]. apply clamp_id. lia.
    + intros Hi. destruct (base_score_number (corporate_risk aiResult))
        as [(I & _)|(_ & z & -> & Hz)]; [congruence|]. apply clamp_id. lia.
    + intros Hi Hne.
      destruct (fires Rule6 (toLowerCase tweetText) aiResult) eqn:E.
      * apply rule6_iff in E. contradiction.
      * rewrite score_add_0.
        destruct (base_score_number (emotional_discomfort aiResult))
          as [(I & _)|(_ & z & -> & Hz)]; [congruence|]. apply clamp_id. lia.
    + intros He.
      pose proof (proj2 (rule6_iff (toLowerCase tweetText) aiResult) He) as E.
      rewrite E, He. reflexivity.
  - intros tweetText aiResult adjustments Hnone Hzero s.
    destruct (all_zero_fields _ Hzero) as (Zb & Zh & Zo).
    destruct (no_keyword_primary _ _ Hnone) as (Pb & Ph & Po).
    subst s. unfold Legacy.scoring, Legacy.pre_adjustment.
    cbn [bengoScore houmuScore oneeScore].
    rewrite Zb, Zh, Zo, Pb, Ph, Po, !score_add_0.
    repeat split.
    + intros Hi Hne.
      destruct (fires Rule6 tweetText aiResult) eqn:E.
      * apply rule6_iff in E. contradiction.
      * apply score_add_0.
    + intros He.
      pose proof (proj2 (rule6_iff tweetText aiResult) He) as E.
      rewrite E, He. reflexivity.
Qed.

Lemma base_score_mapping_witness :
  let s := scoring lower_ascii text_plain risk_high zero_adjustments in
  bengoScore s = Num 4 /\ houmuScore s = Num 2 /\ oneeScore s = Num 6.
Proof.
  intros s. destruct base_score_mapping as (_ & Hrevised & _).
  destruct (Hrevised lower_ascii text_plain risk_high zero_adjustments)
    as (Hb & Hh & _ & Ho).
  - intros r Hr. destruct r; try reflexivity. contradiction.
  - reflexivity.
  - split; [exact (Hb eq_refl) | split; [exact (Hh eq_refl) | apply Ho; reflexivity]].
Defined.

(** C8: a death-wish term and no other keyword, three low levels and zero
    adjustments give 5, 3 and 6: the lawyer and the commentator are in
    favour and the legal department, below its neutral threshold 4, is
    opposed. *)
Theorem death_wish_scenario (toLowerCase : jsstring -> jsstring)
    (tweetText : jsstring) (aiResult adjustments : ApiObject) :
  let text := toLowerCase tweetText in
  fires Rule2 text aiResult = true ->
  (forall r, r <> Rule2 -> r <> Rule6 -> fires r text aiResult = false) ->
  legal_risk aiResult = Has tei ->
  corporate_risk aiResult = Has tei ->
  emotional_discomfort aiResult = Has tei ->
  all_zero adjustments = true ->
  let s := scoring toLowerCase tweetText aiResult adjustments in
  s = {| bengoScore := Num 5; houmuScore := Num 3; oneeScore := Num 6 |} /\
  hanteiFlags s =
    {| HanteiFlags.bengo := Sansei; HanteiFlags.houmu := Hantai;
       HanteiFlags.onee := Sansei |}.
Proof.
  intros text H2 Hnone Hl Hc He Hzero s.
  destruct (all_zero_fields _ Hzero) as (Zb & Zh & Zo).
  assert (Hs : s = {| bengoScore := Num 5; houmuScore := Num 3;
                      oneeScore := Num 6 |}).
  { subst s. unfold scoring, pre_adjustment. fold text.
    rewrite Zb, Zh, Zo, primary_scores_unfold. unfold step.
    rewrite H2.
    rewrite (Hnone Rule1), (Hnone Rule3), (Hnone Rule4), (Hnone Rule5)
      by discriminate.
    assert (H6 : fires Rule6 text aiResult = false).
    { simpl. rewrite He. reflexivity. }
    rewrite H6. unfold initial_primary. rewrite Hl, Hc, He. reflexivity. }
  rewrite Hs. split; reflexivity.
Qed.

Lemma death_wish_scenario_witness :
  let s := scoring lower_ascii text_shine risk_low zero_adjustments in
  s = {| bengoScore := Num 5; houmuScore := Num 3; oneeScore := Num 6 |} /\
  hanteiFlags s =
    {| HanteiFlags.bengo := Sansei; HanteiFlags.houmu := Hantai;
       HanteiFlags.onee := Sansei |}.
Proof.
  apply (death_wish_scenario lower_ascii text_shine risk_low zero_adjustments);
    try reflexivity.
  intros r H2 H6. destruct r; try reflexivity; contradiction.
Defined.

(** ** Validation *)

Lemma validate_string (s : jsstring) :
  validate (JString s) =
  if forallb is_space s then inl msg_no_text
  else if 1000 <? Z.of_nat (length s) then inl msg_too_long
  else inr s.
Proof.
  unfold validate, truthy, typeof_string, trims_to_empty.
  destruct (forallb is_space s) eqn:Hsp.
  - apply trim_empty_iff in Hsp. rewrite Hsp.
    destruct s; reflexivity.
  - assert (Htrim : JsString.eqb (trim s) [] = false).
    { apply jsstring_eqb_neq. intros E. apply trim_empty_iff in E. congruence. }
    rewrite Htrim. destruct s as [|u s]; [discriminate Hsp|]. reflexivity.
Qed.

Lemma legacy_validate_string (s : jsstring) :
  Legacy.validate (JString s) =
  if forallb is_space s then inl msg_no_text else inr s.
Proof.
  unfold Legacy.validate, truthy, typeof_string, trims_to_empty.
  destruct (forallb is_space s) eqn:Hsp.
  - apply trim_empty_iff in Hsp. rewrite Hsp.
    destruct s; reflexivity.
  - assert (Htrim : JsString.eqb (trim s) [] = false).
    { apply jsstring_eqb_neq. intros E. apply trim_empty_iff in E. congruence. }
    rewrite Htrim. destruct s as [|u s]; [discriminate Hsp|]. reflexivity.
Qed.

(** X25: in the revised handler a value is rejected exactly when it is not a
    string (which covers a missing one), or is a string of white space
    only (which covers the empty one), or has more than 1000 code units;
    a value that passes is handed on unchanged. *)
Lemma revised_validate_rejects_iff (v : jsval) :
  ((exists message, validate v = inl message) <->
   typeof_string v = false \/
   exists s, v = JString s /\
             (forallb is_space s = true \/ (1000 < length s)%nat)) /\
  (forall s, validate v = inr s -> v = JString s).
Proof.
  destruct v as [| |b|n|s|]; try (split; [split; [intros _; left; reflexivity
    | intros _; eexists; reflexivity] | discriminate]).
  - split.
    + split; [intros _; left; reflexivity|]. intros _.
      unfold validate. simpl. rewrite orb_true_r. eexists; reflexivity.
    + unfold validate. simpl. rewrite orb_true_r. discriminate.
  - split.
    + split; [intros _; left; reflexivity|]. intros _.
      unfold validate. simpl. rewrite orb_true_r. eexists; reflexivity.
    + unfold validate. simpl. rewrite orb_true_r. discriminate.
  - rewrite validate_string. split.
    + split.
      * intros [message H]. right. exists s. split; [reflexivity|].
        destruct (forallb is_space s); [left; reflexivity|].
        destruct (Z.ltb_spec 1000 (Z.of_nat (length s))); [right; lia|].
        discriminate H.
      * intros [H|(s' & [= <-] & [H|H])]; [discriminate H| |].
        -- rewrite H. eexists; reflexivity.
        -- destruct (forallb is_space s); [eexists; reflexivity|].
           destruct (Z.ltb_spec 1000 (Z.of_nat (length s))); [|lia].
           eexists; reflexivity.
    + intros s' H. destruct (forallb is_space s); [discriminate H|].
      destruct (1000 <? Z.of_nat (length s)); [discriminate H|].
      injection H as ->. reflexivity.
Qed.

(** C4, earlier handler: a string of 1001 code units passes the only
    guard and the three calls are made, where the revised handler answers
    400. *)
Theorem legacy_accepts_long_text :
  length long_text = 1001%nat /\
  Legacy.validate (JString long_text) = inr long_text /\
  (exists t r,
     Legacy.handler env_ok net_ok (post long_text) =
     (ReadApiKey :: ReadBody :: Fetch (riskAnalysisPrompt long_text) :: t,
      Responded 200 (FinalBody r))) /\
  handler lower_ascii env_ok net_ok (post long_text) =
  ([SetHeader; ReadApiKey; ReadBody], Responded 400 (ErrorBody msg_too_long)).
Proof.
  split; [reflexivity|]. split; [vm_compute; reflexivity|]. split.
  - eexists. eexists. vm_compute. reflexivity.
  - vm_compute. reflexivity.
Qed.

(** ** The handler *)

(** C10: any method other than POST is answered 405 at once; the key is
    not read, the body is not read and no call is made. *)
Theorem method_not_allowed_first (toLowerCase : jsstring -> jsstring)
    (env : Env) (net : Network) (req : Request) :
  method req <> POST ->
  handler toLowerCase env net req =
    ([SetHeader], Responded 405 (MessageBody method_not_allowed)) /\
  Legacy.handler env net req =
    ([], Responded 405 (MessageBody method_not_allowed)).
Proof.
  intros H. apply jsstring_eqb_neq in H.
  unfold handler, Legacy.handler. rewrite H. split; reflexivity.
Qed.

Lemma method_not_allowed_first_witness :
  handler lower_ascii env_ok net_ok get_request =
    ([SetHeader], Responded 405 (MessageBody method_not_allowed)) /\
  Legacy.handler env_ok net_ok get_request =
    ([], Responded 405 (MessageBody method_not_allowed)).
Proof.
  apply (method_not_allowed_first lower_ascii env_ok net_ok get_request).
  discriminate.
Defined.

(** ** What [callApi] returns *)

(** Every failure of the request gives an object whose [error] is set. *)
Lemma failure_is_error (net : Network) (prompt : Prompt) :
  (forall value, net prompt <> Json value) ->
  returns_error net prompt = true.
Proof.
  intros H. unfold returns_error.
  destruct (net prompt) as [|status|blockReason| |value]; try reflexivity.
  exfalso. apply (H value). reflexivity.
Qed.

(** ** The calls, one after the other *)

Section Pipeline.

Variable toLowerCase : jsstring -> jsstring.
Variable net : Network.
Variable tweetText : jsstring.

Let escapedText := escapeForPrompt tweetText.
Let call1 := riskAnalysisPrompt escapedText.
Let call2 := adjustmentPrompt escapedText.

(** The run of the revised pipeline, reply by reply. *)
Lemma pipeline_value :
  pipeline toLowerCase net tweetText =
  match to_object (net call1) with
  | JsonNull => ([Fetch call1], Exit (Unhandled TypeError))
  | JsonObject aiResult =>
    if truthy_field (error aiResult)
    then ([Fetch call1], Exit (Responded 500 (ObjectBody aiResult)))
    else
      match to_object (net call2) with
      | JsonNull => ([Fetch call1; Fetch call2], Exit (Unhandled TypeError))
      | JsonObject adjustments =>
        let scores :=
          scoring toLowerCase tweetText aiResult
            (absorb_adjustments adjustments) in
        let call3 :=
          make_commentPrompt escapedText aiResult (hanteiFlags scores) in
        match to_object (net call3) with
        | JsonNull =>
          ([Fetch call1; Fetch call2; Fetch call3], Exit (Unhandled TypeError))
        | JsonObject comments =>
          ([Fetch call1; Fetch call2; Fetch call3],
           Exit (Responded 200
                   (FinalBody
                      (finalResponse scores (absorb_comments comments)
                         (Has (or_str (reason aiResult) fallback_reason))))))
        end
      end
  end.
Proof.
  unfold pipeline, callApi, properties, bind, emit, ret, throw, respond.
  fold escapedText call1 call2. simpl.
  destruct (to_object (net call1)) as [|aiResult]; [reflexivity|]. simpl.
  destruct (truthy_field (error aiResult)); [reflexivity|]. simpl.
  destruct (to_object (net call2)) as [|adjustments]; [reflexivity|]. simpl.
  destruct (to_object (net _)) as [|comments]; reflexivity.
Qed.

(** The run of the earlier pipeline, reply by reply. *)
Lemma legacy_pipeline_value :
  Legacy.pipeline net tweetText =
  let call1 := riskAnalysisPrompt tweetText in
  let call2 := adjustmentPrompt tweetText in
  match Legacy.to_object (net call1) with
  | JsonNull => ([Fetch call1], Exit (Unhandled TypeError))
  | JsonObject aiResult =>
    if truthy_field (error aiResult)
    then ([Fetch call1], Exit (Responded 500 (ObjectBody aiResult)))
    else
      match Legacy.to_object (net call2) with
      | JsonNull => ([Fetch call1; Fetch call2], Exit (Unhandled TypeError))
      | JsonObject adjustments =>
        let scores :=
          Legacy.scoring tweetText aiResult (absorb_adjustments adjustments) in
        let call3 :=
          make_commentPrompt tweetText aiResult (hanteiFlags scores) in
        match Legacy.to_object (net call3) with
        | JsonNull =>
          ([Fetch call1; Fetch call2; Fetch call3], Exit (Unhandled TypeError))
        | JsonObject comments =>
          ([Fetch call1; Fetch call2; Fetch call3],
           Exit (Responded 200
                   (FinalBody
                      (finalResponse scores (Legacy.absorb_comments comments)
                         (reason aiResult)))))
        end
      end
  end.
Proof.
  unfold Legacy.pipeline, Legacy.callApi, properties, bind, emit, ret, throw,
    respond. simpl.
  destruct (Legacy.to_object (net (riskAnalysisPrompt tweetText)))
    as [|aiResult]; [reflexivity|]. simpl.
  destruct (truthy_field (error aiResult)); [reflexivity|]. simpl.
  destruct (Legacy.to_object (net (adjustmentPrompt tweetText)))
    as [|adjustments]; [reflexivity|]. simpl.
  destruct (Legacy.to_object (net _)) as [|comments]; reflexivity.
Qed.

End Pipeline.

(** On a valid request the revised handler is its pipeline, with the
    exception, if any, turned into the generic 500. *)
Lemma handler_valid_request (toLowerCase : jsstring -> jsstring)
    (env : Env) (net : Network) (req : Request) (v : jsval)
    (tweetText : jsstring) :
  method req = POST ->
  truthy_str (GEMINI_API_KEY env) = true ->
  body req = Some v ->
  validate v = inr tweetText ->
  handler toLowerCase env net req =
  run (try_catch
         (bind (emit SetHeader) (fun _ =>
          bind (emit ReadApiKey) (fun _ =>
          bind (emit ReadBody) (fun _ => pipeline toLowerCase net tweetText))))
         (on_exception env)).
Proof.
  intros Hm Hk Hb Hv. apply jsstring_eqb_eq in Hm.
  unfold handler, destructure. rewrite Hm, Hk, Hb. simpl.
  rewrite Hv. reflexivity.
Qed.

Lemma legacy_valid_request (env : Env) (net : Network) (req : Request)
    (v : jsval) (tweetText : jsstring) :
  method req = POST ->
  truthy_str (GEMINI_API_KEY env) = true ->
  body req = Some v ->
  Legacy.validate v = inr tweetText ->
  Legacy.handler env net req =
  run (bind (emit ReadApiKey) (fun _ =>
       bind (emit ReadBody) (fun _ => Legacy.pipeline net tweetText))).
Proof.
  intros Hm Hk Hb Hv. apply jsstring_eqb_eq in Hm.
  unfold Legacy.handler, destructure. rewrite Hm, Hk, Hb. simpl.
  rewrite Hv. reflexivity.
Qed.


(** The display strings built from the fallback comments. *)
Lemma fallback_display (scores : Scores) (ai_reason : Field jsstring) :
  let r := finalResponse scores fallback_comments ai_reason in
  let f := hanteiFlags scores in
  FinalResponse.bengo r =
    getPrefix (HanteiFlags.bengo f) Bengo ++ space ++ fallback_comment /\
  FinalResponse.houmu r =
    getPrefix (HanteiFlags.houmu f) Houmu ++ space ++ fallback_comment /\
  FinalResponse.onee r =
    getPrefix (HanteiFlags.onee f) Onee ++ space ++ fallback_comment.
Proof. repeat split. Qed.



(** ** The two revisions compared *)

Lemma clamp_keeps_verdict (value : Score) (sansei chuuritsu : Z) :
  0 < chuuritsu <= 10 -> 0 < sansei <= 10 ->
  getHantei (clamp value 0 10) sansei chuuritsu =
  getHantei value sansei chuuritsu.
Proof.
  intros Hc Hs. destruct value as [z|]; [|reflexivity].
  unfold getHantei, clamp, score_geb.
  destruct (Z.geb_spec (Z.max 0 (Z.min 10 z)) sansei),
    (Z.geb_spec z sansei),
    (Z.geb_spec (Z.max 0 (Z.min 10 z)) chuuritsu),
    (Z.geb_spec z chuuritsu); try reflexivity; lia.
Qed.

Lemma clamp_keeps_override (value : Score) :
  score_geb (clamp value 0 10) 7 = score_geb value 7.
Proof.
  destruct value as [z|]; [|reflexivity]. unfold clamp, score_geb.
  destruct (Z.geb_spec (Z.max 0 (Z.min 10 z)) 7), (Z.geb_spec z 7);
    try reflexivity; lia.
Qed.

(** X27: the clamp changes the scores but nothing that is sent back: every
    threshold the scores are compared with lies inside [0, 10]. *)
Lemma clamp_not_observable (toLowerCase : jsstring -> jsstring)
    (tweetText : jsstring) (aiResult adjustments comments : ApiObject)
    (ai_reason : Field jsstring) :
  finalResponse (scoring toLowerCase tweetText aiResult adjustments)
    comments ai_reason =
  finalResponse (Legacy.scoring (toLowerCase tweetText) aiResult adjustments)
    comments ai_reason.
Proof.
  unfold finalResponse, hanteiFlags, scoring, Legacy.scoring,
    pre_adjustment, Legacy.pre_adjustment, gougi.
  cbn [bengoScore houmuScore oneeScore].
  rewrite !clamp_keeps_verdict by lia. rewrite clamp_keeps_override.
  reflexivity.
Qed.



(** * Further properties of the code *)

(** ** [escapeForPrompt] *)

Lemma escapeForPrompt_app (a b : jsstring) :
  escapeForPrompt (a ++ b) = escapeForPrompt a ++ escapeForPrompt b.
Proof.
  unfold escapeForPrompt, replace_all. rewrite !flat_map_app. reflexivity.
Qed.

Lemma escapeForPrompt_unit (u : N) : escapeForPrompt [u] = escape_unit u.
Proof.
  unfold escape_unit.
  destruct (N.eqb_spec u 92) as [->|H92]; [reflexivity|].
  destruct (N.eqb_spec u 34) as [->|H34]; [reflexivity|].
  destruct (N.eqb_spec u 10) as [->|H10]; [reflexivity|].
  destruct (N.eqb_spec u 13) as [->|H13]; [reflexivity|].
  destruct (N.eqb_spec u 9) as [->|H9]; [reflexivity|].
  apply N.eqb_neq in H92, H34, H10, H13, H9.
  unfold escapeForPrompt, replace_all. simpl.
  rewrite H92. simpl. rewrite H34. simpl. rewrite H10. simpl.
  rewrite H13. simpl. rewrite H9. reflexivity.
Qed.

Lemma escapeForPrompt_cons (u : N) (s : jsstring) :
  escapeForPrompt (u :: s) = escape_unit u ++ escapeForPrompt s.
Proof.
  change (u :: s) with ([u] ++ s).
  rewrite escapeForPrompt_app, escapeForPrompt_unit. reflexivity.
Qed.

(** The shape of one escaped code unit. *)
Lemma escape_unit_cases (u : N) :
  (special u = false /\ (u =? 92)%N = false /\ escape_unit u = [u]) \/
  (special u = true /\
   exists x, escape_unit u = [92; x]%N /\ escape_letter x = true).
Proof.
  unfold escape_unit, special.
  destruct (N.eqb_spec u 92) as [->|H92];
    [right; split; [reflexivity|eexists; split; reflexivity]|].
  destruct (N.eqb_spec u 34) as [->|H34];
    [right; split; [reflexivity|eexists; split; reflexivity]|].
  destruct (N.eqb_spec u 10) as [->|H10];
    [right; split; [reflexivity|eexists; split; reflexivity]|].
  destruct (N.eqb_spec u 13) as [->|H13];
    [right; split; [reflexivity|eexists; split; reflexivity]|].
  destruct (N.eqb_spec u 9) as [->|H9];
    [right; split; [reflexivity|eexists; split; reflexivity]|].
  left. repeat split.
Qed.

(** X1: the five replacements, run one after the other, amount to one pass
    that rewrites each code unit on its own: the backslashes written by the
    later passes are never doubled and no escape is rewritten twice. *)
Theorem escape_single_pass (text : jsstring) :
  escapeForPrompt text = flat_map escape_unit text.
Proof.
  induction text as [|u s IH]; [reflexivity|].
  rewrite escapeForPrompt_cons, IH. reflexivity.
Qed.

(** X2: in an escaped text every backslash opens one of the five escapes
    and no double quote, line feed, carriage return or tab is left
    outside an escape. *)
Theorem escape_well_escaped (text : jsstring) :
  well_escaped (escapeForPrompt text) = true.
Proof.
  induction text as [|u s IH]; [reflexivity|].
  rewrite escapeForPrompt_cons.
  destruct (escape_unit_cases u) as [(Hs & H92 & ->)|(_ & x & -> & Hx)].
  - simpl. rewrite H92, Hs, IH. reflexivity.
  - simpl. rewrite Hx, IH. reflexivity.
Qed.

Lemma escape_unit_head (u v : N) (a b : jsstring) :
  escape_unit u ++ a = escape_unit v ++ b -> u = v /\ a = b.
Proof.
  unfold escape_unit.
  destruct (N.eqb_spec u 92) as [->|U92];
  [|destruct (N.eqb_spec u 34) as [->|U34];
  [|destruct (N.eqb_spec u 10) as [->|U10];
  [|destruct (N.eqb_spec u 13) as [->|U13];
  [|destruct (N.eqb_spec u 9) as [->|U9]]]]];
  (destruct (N.eqb_spec v 92) as [->|V92];
  [|destruct (N.eqb_spec v 34) as [->|V34];
  [|destruct (N.eqb_spec v 10) as [->|V10];
  [|destruct (N.eqb_spec v 13) as [->|V13];
  [|destruct (N.eqb_spec v 9) as [->|V9]]]]]);
  simpl; intros H; injection H; intros; subst;
    try discriminate; try congruence; split; reflexivity.
Qed.

(** X3: escaping loses nothing: two texts with the same escaped form are
    the same text. *)
Theorem escape_injective (a b : jsstring) :
  escapeForPrompt a = escapeForPrompt b -> a = b.
Proof.
  revert b. induction a as [|u a IH]; intros [|v b].
  - reflexivity.
  - rewrite escapeForPrompt_cons.
    destruct (escape_unit_cases v) as [(_ & _ & ->)|(_ & x & -> & _)];
      discriminate.
  - rewrite escapeForPrompt_cons.
    destruct (escape_unit_cases u) as [(_ & _ & ->)|(_ & x & -> & _)];
      discriminate.
  - rewrite !escapeForPrompt_cons. intros H.
    apply escape_unit_head in H as [-> H]. f_equal. apply IH, H.
Qed.

Lemma escape_injective_witness : text_quoted = text_quoted.
Proof. apply (escape_injective text_quoted text_quoted). reflexivity. Defined.

Lemma escape_length (text : jsstring) :
  length (escapeForPrompt text) =
  (length text + length (List.filter special text))%nat.
Proof.
  induction text as [|u s IH]; [reflexivity|].
  rewrite escapeForPrompt_cons, length_app, IH.
  destruct (escape_unit_cases u) as [(Hs & _ & ->)|(Hs & x & -> & _)];
    cbn [List.filter]; rewrite Hs; simpl; lia.
Qed.

(** X4: an escaped text is longer by one code unit for each backslash,
    quote, line feed, carriage return and tab; so it is at most twice as
    long, and it is the text itself exactly when the text has none of
    the five. *)
Theorem escape_growth (text : jsstring) :
  length (escapeForPrompt text) =
    (length text + length (List.filter special text))%nat /\
  (length text <= length (escapeForPrompt text) <= 2 * length text)%nat /\
  (escapeForPrompt text = text <->
   forallb (fun u => negb (special u)) text = true).
Proof.
  split; [apply escape_length|]. split.
  - rewrite escape_length.
    pose proof (List.filter_length_le special text). lia.
  - split.
    + intros H. apply (f_equal (@length N)) in H.
      rewrite escape_length in H.
      assert (Hnone : List.filter special text = []).
      { destruct (List.filter special text); [reflexivity|].
        simpl in H. lia. }
      clear H. induction text as [|u s IH]; [reflexivity|].
      cbn [List.filter] in Hnone. simpl.
      destruct (special u); [discriminate Hnone|]. apply IH, Hnone.
    + intros H. induction text as [|u s IH]; [reflexivity|].
      simpl in H. apply andb_true_iff in H as [Hu Hs].
      rewrite escapeForPrompt_cons, (IH Hs).
      destruct (escape_unit_cases u) as [(_ & _ & ->)|(Hsp & _)];
        [reflexivity|].
      rewrite Hsp in Hu. discriminate Hu.
Qed.

(** ** Every way the revised handler can end *)

Lemma handler_outcomes (toLowerCase : jsstring -> jsstring)
    (env : Env) (net : Network) (req : Request) :
  let result := handler toLowerCase env net req in
  (method req <> POST /\
   result = ([SetHeader], Responded 405 (MessageBody method_not_allowed))) \/
  (method req = POST /\ truthy_str (GEMINI_API_KEY env) = false /\
   result = ([SetHeader; ReadApiKey], Responded 500 (ErrorBody msg_no_key))) \/
  (method req = POST /\ truthy_str (GEMINI_API_KEY env) = true /\
   body req = None /\
   result = ([SetHeader; ReadApiKey; ReadBody], on_exception env TypeError)) \/
  (exists v message,
     method req = POST /\ truthy_str (GEMINI_API_KEY env) = true /\
     body req = Some v /\ validate v = inl message /\
     result = ([SetHeader; ReadApiKey; ReadBody],
               Responded 400 (ErrorBody message))) \/
  (exists v tweetText,
     method req = POST /\ truthy_str (GEMINI_API_KEY env) = true /\
     body req = Some v /\ validate v = inr tweetText /\
     let escapedText := escapeForPrompt tweetText in
     let call1 := riskAnalysisPrompt escapedText in
     let call2 := adjustmentPrompt escapedText in
     (to_object (net call1) = JsonNull /\
      result = ([SetHeader; ReadApiKey; ReadBody; Fetch call1],
                on_exception env TypeError)) \/
     (exists aiResult,
        to_object (net call1) = JsonObject aiResult /\
        ((truthy_field (error aiResult) = true /\
          result = ([SetHeader; ReadApiKey; ReadBody; Fetch call1],
                    Responded 500 (ObjectBody aiResult))) \/
         (truthy_field (error aiResult) = false /\
          ((to_object (net call2) = JsonNull /\
            result = ([SetHeader; ReadApiKey; ReadBody;
                       Fetch call1; Fetch call2],
                      on_exception env TypeError)) \/
           (exists adjustments,
              to_object (net call2) = JsonObject adjustments /\
              let scores :=
                scoring toLowerCase tweetText aiResult
                  (absorb_adjustments adjustments) in
              let call3 :=
                make_commentPrompt escapedText aiResult (hanteiFlags scores) in
              (to_object (net call3) = JsonNull /\
               result = ([SetHeader; ReadApiKey; ReadBody;
                          Fetch call1; Fetch call2; Fetch call3],
                         on_exception env TypeError)) \/
              (exists comments,
                 to_object (net call3) = JsonObject comments /\
                 result = ([SetHeader; ReadApiKey; ReadBody;
                            Fetch call1; Fetch call2; Fetch call3],
                           Responded 200
                             (FinalBody
                                (finalResponse scores
                                   (absorb_comments comments)
                                   (Has (or_str (reason aiResult)
                                           fallback_reason)))))))))))).
Proof.
  intros result.
  destruct (JsString.eqb (method req) POST) eqn:Hm.
  2:{ left. assert (Hne : method req <> POST).
      { intros E. apply jsstring_eqb_eq in E. congruence. }
      split; [exact Hne|]. subst result. unfold handler. rewrite Hm.
      reflexivity. }
  right. pose proof (proj1 (jsstring_eqb_eq _ _) Hm) as Hpost.
  destruct (truthy_str (GEMINI_API_KEY env)) eqn:Hk.
  2:{ left. repeat split; try assumption. subst result. unfold handler.
      rewrite Hm, Hk. reflexivity. }
  right. destruct (body req) as [v|] eqn:Hb.
  2:{ left. repeat split; try assumption. subst result.
      unfold handler, destructure. rewrite Hm, Hk, Hb. reflexivity. }
  right. destruct (validate v) as [message|tweetText] eqn:Hv.
  { left. exists v, message. repeat split; try assumption. subst result.
    unfold handler, destructure. rewrite Hm, Hk, Hb. simpl. rewrite Hv.
    reflexivity. }
  right. exists v, tweetText. do 4 (split; [first [assumption | reflexivity]|]).
  intros escapedText call1 call2. subst result.
  rewrite (handler_valid_request toLowerCase env net req v tweetText
             Hpost Hk Hb Hv).
  rewrite pipeline_value. fold escapedText call1 call2.
  destruct (to_object (net call1)) as [|aiResult];
    [left; split; reflexivity|].
  right. exists aiResult. split; [reflexivity|].
  destruct (truthy_field (error aiResult));
    [left; split; reflexivity|].
  right. split; [reflexivity|].
  destruct (to_object (net call2)) as [|adjustments];
    [left; split; reflexivity|].
  right. exists adjustments. split; [reflexivity|].
  intros scores call3. cbv zeta. fold scores call3.
  destruct (to_object (net call3)) as [|comments];
    [left; split; reflexivity|].
  right. exists comments. split; reflexivity.
Qed.

(** Every way the earlier handler can end. *)
Lemma legacy_outcomes (env : Env) (net : Network) (req : Request) :
  let result := Legacy.handler env net req in
  (method req <> POST /\
   result = ([], Responded 405 (MessageBody method_not_allowed))) \/
  (method req = POST /\ truthy_str (GEMINI_API_KEY env) = false /\
   result = ([ReadApiKey], Responded 500 (ErrorBody msg_no_key))) \/
  (method req = POST /\ truthy_str (GEMINI_API_KEY env) = true /\
   body req = None /\
   result = ([ReadApiKey; ReadBody], Unhandled TypeError)) \/
  (exists v message,
     method req = POST /\ truthy_str (GEMINI_API_KEY env) = true /\
     body req = Some v /\ Legacy.validate v = inl message /\
     result = ([ReadApiKey; ReadBody], Responded 400 (ErrorBody message))) \/
  (exists v tweetText,
     method req = POST /\ truthy_str (GEMINI_API_KEY env) = true /\
     body req = Some v /\ Legacy.validate v = inr tweetText /\
     let call1 := riskAnalysisPrompt tweetText in
     let call2 := adjustmentPrompt tweetText in
     (Legacy.to_object (net call1) = JsonNull /\
      result = ([ReadApiKey; ReadBody; Fetch call1], Unhandled TypeError)) \/
     (exists aiResult,
        Legacy.to_object (net call1) = JsonObject aiResult /\
        ((truthy_field (error aiResult) = true /\
          result = ([ReadApiKey; ReadBody; Fetch call1],
                    Responded 500 (ObjectBody aiResult))) \/
         (truthy_field (error aiResult) = false /\
          ((Legacy.to_object (net call2) = JsonNull /\
            result = ([ReadApiKey; ReadBody; Fetch call1; Fetch call2],
                      Unhandled TypeError)) \/
           (exists adjustments,
              Legacy.to_object (net call2) = JsonObject adjustments /\
              let scores :=
                Legacy.scoring tweetText aiResult
                  (absorb_adjustments adjustments) in
              let call3 :=
                make_commentPrompt tweetText aiResult (hanteiFlags scores) in
              (Legacy.to_object (net call3) = JsonNull /\
               result = ([ReadApiKey; ReadBody;
                          Fetch call1; Fetch call2; Fetch call3],
                         Unhandled TypeError)) \/
              (exists comments,
                 Legacy.to_object (net call3) = JsonObject comments /\
                 result = ([ReadApiKey; ReadBody;
                            Fetch call1; Fetch call2; Fetch call3],
                           Responded 200
                             (FinalBody
                                (finalResponse scores
                                   (Legacy.absorb_comments comments)
                                   (reason aiResult))))))))))).
Proof.
  intros result.
  destruct (JsString.eqb (method req) POST) eqn:Hm.
  2:{ left. assert (Hne : method req <> POST).
      { intros E. apply jsstring_eqb_eq in E. congruence. }
      split; [exact Hne|]. subst result. unfold Legacy.handler. rewrite Hm.
      reflexivity. }
  right. pose proof (proj1 (jsstring_eqb_eq _ _) Hm) as Hpost.
  destruct (truthy_str (GEMINI_API_KEY env)) eqn:Hk.
  2:{ left. repeat split; try assumption. subst result. unfold Legacy.handler.
      rewrite Hm, Hk. reflexivity. }
  right. destruct (body req) as [v|] eqn:Hb.
  2:{ left. repeat split; try assumption. subst result.
      unfold Legacy.handler, destructure. rewrite Hm, Hk, Hb. reflexivity. }
  right. destruct (Legacy.validate v) as [message|tweetText] eqn:Hv.
  { left. exists v, message. repeat split; try assumption. subst result.
    unfold Legacy.handler, destructure. rewrite Hm, Hk, Hb. simpl. rewrite Hv.
    reflexivity. }
  right. exists v, tweetText. do 4 (split; [first [assumption | reflexivity]|]).
  intros call1 call2. subst result.
  rewrite (legacy_valid_request env net req v tweetText Hpost Hk Hb Hv).
  rewrite legacy_pipeline_value. cbv zeta. fold call1 call2.
  destruct (Legacy.to_object (net call1)) as [|aiResult];
    [left; split; reflexivity|].
  right. exists aiResult. split; [reflexivity|].
  destruct (truthy_field (error aiResult));
    [left; split; reflexivity|].
  right. split; [reflexivity|].
  destruct (Legacy.to_object (net call2)) as [|adjustments];
    [left; split; reflexivity|].
  right. exists adjustments. split; [reflexivity|].
  destruct (Legacy.to_object (net _)) as [|comments];
    [left; split; reflexivity|].
  right. exists comments. split; reflexivity.
Qed.

(** X5: with the API key missing or empty, a POST is answered 500 with
    the configuration message in both revisions, before the body is read
    and without any call upstream. *)
Theorem missing_key_refused (toLowerCase : jsstring -> jsstring)
    (env : Env) (net : Network) (req : Request) :
  method req = POST ->
  truthy_str (GEMINI_API_KEY env) = false ->
  handler toLowerCase env net req =
    ([SetHeader; ReadApiKey], Responded 500 (ErrorBody msg_no_key)) /\
  Legacy.handler env net req =
    ([ReadApiKey], Responded 500 (ErrorBody msg_no_key)).
Proof.
  intros Hm Hk. apply jsstring_eqb_eq in Hm.
  unfold handler, Legacy.handler. rewrite Hm, Hk. split; reflexivity.
Qed.

Lemma missing_key_refused_witness :
  handler lower_ascii env_no_key net_ok (post text_shine) =
    ([SetHeader; ReadApiKey], Responded 500 (ErrorBody msg_no_key)) /\
  Legacy.handler env_no_key net_ok (post text_shine) =
    ([ReadApiKey], Responded 500 (ErrorBody msg_no_key)).
Proof.
  apply (missing_key_refused lower_ascii env_no_key net_ok (post text_shine));
    reflexivity.
Defined.

(** X6: a text that fails validation is answered 400 with the message of
    the guard that failed, and no call is made upstream; this holds in
    both revisions, each with its own guards. *)
Theorem invalid_input_refused (toLowerCase : jsstring -> jsstring)
    (env : Env) (net : Network) (req : Request) (v : jsval) :
  method req = POST ->
  truthy_str (GEMINI_API_KEY env) = true ->
  body req = Some v ->
  (forall message, validate v = inl message ->
     (message = msg_no_text \/ message = msg_too_long) /\
     handler toLowerCase env net req =
       ([SetHeader; ReadApiKey; ReadBody], Responded 400 (ErrorBody message))) /\
  (forall message, Legacy.validate v = inl message ->
     message = msg_no_text /\
     Legacy.handler env net req =
       ([ReadApiKey; ReadBody], Responded 400 (ErrorBody message))).
Proof.
  intros Hm Hk Hb. apply jsstring_eqb_eq in Hm. split.
  - intros message Hv. split.
    + revert Hv. unfold validate.
      destruct (_ || _ || _); [intros [= <-]; left; reflexivity|].
      destruct v; try (intros [= <-]; left; reflexivity).
      destruct (1000 <? _); [intros [= <-]; right; reflexivity|discriminate].
    + unfold handler, destructure. rewrite Hm, Hk, Hb. simpl. rewrite Hv.
      reflexivity.
  - intros message Hv. split.
    + revert Hv. unfold Legacy.validate.
      destruct (_ || _ || _); [intros [= <-]; reflexivity|].
      destruct v; intros [= <-]; reflexivity.
    + unfold Legacy.handler, destructure. rewrite Hm, Hk, Hb. simpl.
      rewrite Hv. reflexivity.
Qed.

Lemma invalid_input_refused_witness :
  handler lower_ascii env_ok net_ok (post_value (JNumber 42)) =
    ([SetHeader; ReadApiKey; ReadBody], Responded 400 (ErrorBody msg_no_text)) /\
  Legacy.handler env_ok net_ok (post_value (JString [32; 12288]%N)) =
    ([ReadApiKey; ReadBody], Responded 400 (ErrorBody msg_no_text)).
Proof.
  split.
  - apply (proj1 (invalid_input_refused lower_ascii env_ok net_ok
                    (post_value (JNumber 42)) (JNumber 42)
                    eq_refl eq_refl eq_refl) msg_no_text eq_refl).
  - apply (proj2 (invalid_input_refused lower_ascii env_ok net_ok
                    (post_value (JString [32; 12288]%N))
                    (JString [32; 12288]%N)
                    eq_refl eq_refl eq_refl) msg_no_text eq_refl).
Defined.

Lemma development_only (env : Env) :
  is_development env = true <-> NODE_ENV env = Some development.
Proof.
  unfold is_development. destruct (NODE_ENV env) as [s|].
  - rewrite jsstring_eqb_eq. split; congruence.
  - split; discriminate.
Qed.

(** X7: a POST whose body cannot be destructured raises a TypeError.  The
    revised handler catches it and answers 500 with the generic message,
    adding the details only when NODE_ENV is "development"; the earlier
    handler has no catch and sends no response.  No call is made. *)
Theorem missing_body_outcome (toLowerCase : jsstring -> jsstring)
    (env : Env) (net : Network) (req : Request) :
  method req = POST ->
  truthy_str (GEMINI_API_KEY env) = true ->
  body req = None ->
  (exists details,
     handler toLowerCase env net req =
       ([SetHeader; ReadApiKey; ReadBody],
        Responded 500 (ServerErrorBody msg_server details)) /\
     (details = Some TypeError <-> NODE_ENV env = Some development) /\
     (details = None <-> NODE_ENV env <> Some development)) /\
  Legacy.handler env net req = ([ReadApiKey; ReadBody], Unhandled TypeError).
Proof.
  intros Hm Hk Hb. apply jsstring_eqb_eq in Hm. split.
  - eexists. split.
    + unfold handler, destructure. rewrite Hm, Hk, Hb. reflexivity.
    + pose proof (development_only env) as Hdev.
      destruct (is_development env).
      * assert (E : NODE_ENV env = Some development) by (apply Hdev; reflexivity).
        split; split; intros; try assumption; try reflexivity;
          try discriminate; contradiction.
      * assert (E : NODE_ENV env <> Some development).
        { intros E. apply Hdev in E. discriminate E. }
        split; split; intros; try assumption; try reflexivity;
          try discriminate; contradiction.
  - unfold Legacy.handler, destructure. rewrite Hm, Hk, Hb. reflexivity.
Qed.

Lemma missing_body_outcome_witness :
  handler lower_ascii env_development net_ok post_without_body =
    ([SetHeader; ReadApiKey; ReadBody],
     Responded 500 (ServerErrorBody msg_server (Some TypeError))) /\
  handler lower_ascii env_ok net_ok post_without_body =
    ([SetHeader; ReadApiKey; ReadBody],
     Responded 500 (ServerErrorBody msg_server None)) /\
  Legacy.handler env_ok net_ok post_without_body =
    ([ReadApiKey; ReadBody], Unhandled TypeError).
Proof.
  split; [|split].
  - destruct (proj1 (missing_body_outcome lower_ascii env_development net_ok
                       post_without_body eq_refl eq_refl eq_refl))
      as (details & H & Hd & _).
    rewrite H. rewrite (proj2 Hd eq_refl). reflexivity.
  - destruct (proj1 (missing_body_outcome lower_ascii env_ok net_ok
                       post_without_body eq_refl eq_refl eq_refl))
      as (details & H & _ & Hd).
    rewrite H. rewrite (proj2 Hd); [reflexivity|discriminate].
  - apply (proj2 (missing_body_outcome lower_ascii env_ok net_ok
                    post_without_body eq_refl eq_refl eq_refl)).
Defined.

Ltac outcomes H :=
  cbv zeta in H;
  destruct H as
    [(?Hm & ?E)
    |[(?Hm & ?Hk & ?E)
    |[(?Hm & ?Hk & ?Hb & ?E)
    |[(?v & ?message & ?Hm & ?Hk & ?Hb & ?Hv & ?E)
    |(?v & ?tweetText & ?Hm & ?Hk & ?Hb & ?Hv &
      [(?N1 & ?E)
      |(?aiResult & ?O1 &
        [(?T1 & ?E)
        |(?T1 &
          [(?N2 & ?E)
          |(?adjustments & ?O2 &
            [(?N3 & ?E)|(?comments & ?O3 & ?E)])])])])]]]].

(** X8: the revised handler answers every request: whatever the request,
    the environment and the upstream do, it ends with a response whose
    status is 200, 400, 405 or 500, never with an uncaught exception. *)
Theorem revised_always_responds (toLowerCase : jsstring -> jsstring)
    (env : Env) (net : Network) (req : Request) :
  exists status b,
    snd (handler toLowerCase env net req) = Responded status b /\
    (status = 200 \/ status = 400 \/ status = 405 \/ status = 500).
Proof.
  pose proof (handler_outcomes toLowerCase env net req) as H.
  outcomes H; rewrite E; unfold on_exception; simpl;
    eexists; eexists; (split; [reflexivity|lia]).
Qed.


(** ** Calls upstream *)

Lemma validate_accepts (v : jsval) (s : jsstring) :
  validate v = inr s ->
  v = JString s /\ forallb is_space s = false /\ (1 <= length s <= 1000)%nat.
Proof.
  destruct v as [| |b|n|t|]; try discriminate.
  - unfold validate. simpl. rewrite orb_true_r. discriminate.
  - unfold validate. simpl. rewrite orb_true_r. discriminate.
  - rewrite validate_string.
    destruct (forallb is_space t) eqn:Hsp; [discriminate|].
    destruct (Z.ltb_spec 1000 (Z.of_nat (length t))); [discriminate|].
    intros [= <-]. split; [reflexivity|]. split; [exact Hsp|].
    destruct t; [discriminate Hsp|]. simpl in *. lia.
Qed.

Lemma legacy_validate_accepts (v : jsval) (s : jsstring) :
  Legacy.validate v = inr s -> v = JString s /\ forallb is_space s = false.
Proof.
  destruct v as [| |b|n|t|]; try discriminate.
  - unfold Legacy.validate. simpl. rewrite orb_true_r. discriminate.
  - unfold Legacy.validate. simpl. rewrite orb_true_r. discriminate.
  - rewrite legacy_validate_string.
    destruct (forallb is_space t) eqn:Hsp; [discriminate|].
    intros [= <-]. split; [reflexivity|exact Hsp].
Qed.


(** X11: every prompt the revised handler sends carries the escaped text,
    which is well escaped; the earlier handler sends the text as it came. *)
Theorem prompts_carry_text (toLowerCase : jsstring -> jsstring)
    (env : Env) (net : Network) (req : Request) (tweetText : jsstring) :
  body req = Some (JString tweetText) ->
  Forall (fun p => prompt_text p = escapeForPrompt tweetText /\
                   well_escaped (prompt_text p) = true)
    (fetches (fst (handler toLowerCase env net req))) /\
  Forall (fun p => prompt_text p = tweetText)
    (fetches (fst (Legacy.handler env net req))).
Proof.
  intros Hbody. split.
  - pose proof (handler_outcomes toLowerCase env net req) as H.
    outcomes H; rewrite E; simpl; try constructor;
      rewrite Hbody in Hb; injection Hb as <-;
      apply validate_accepts in Hv as ([= <-] & _);
      repeat constructor; simpl; try reflexivity; apply escape_well_escaped.
  - pose proof (legacy_outcomes env net req) as H.
    outcomes H; rewrite E; simpl; try constructor;
      rewrite Hbody in Hb; injection Hb as <-;
      apply legacy_validate_accepts in Hv as ([= <-] & _);
      repeat constructor.
Qed.

Lemma prompts_carry_text_witness :
  Forall (fun p => prompt_text p = escapeForPrompt text_quoted /\
                   well_escaped (prompt_text p) = true)
    (fetches (fst (handler lower_ascii env_ok net_ok (post text_quoted)))) /\
  Forall (fun p => prompt_text p = text_quoted)
    (fetches (fst (Legacy.handler env_ok net_ok (post text_quoted)))).
Proof.
  apply (prompts_carry_text lower_ascii env_ok net_ok (post text_quoted)
           text_quoted).
  reflexivity.
Defined.

(** X12: the revised handler calls upstream only for a POST, with the key
    set, whose text is a string of 1 to 1000 code units that are not all
    white space. *)
Theorem calls_need_valid_request (toLowerCase : jsstring -> jsstring)
    (env : Env) (net : Network) (req : Request) :
  fetches (fst (handler toLowerCase env net req)) <> [] ->
  method req = POST /\
  truthy_str (GEMINI_API_KEY env) = true /\
  exists tweetText,
    body req = Some (JString tweetText) /\
    forallb is_space tweetText = false /\
    (1 <= length tweetText <= 1000)%nat.
Proof.
  pose proof (handler_outcomes toLowerCase env net req) as H.
  outcomes H; rewrite E; simpl; intros Hne; try contradiction;
    apply validate_accepts in Hv as (-> & Hsp & Hlen);
    (split; [assumption|]); (split; [assumption|]);
    exists tweetText; auto.
Qed.

Lemma calls_need_valid_request_witness :
  method (post text_shine) = POST /\
  truthy_str (GEMINI_API_KEY env_ok) = true /\
  exists tweetText,
    body (post text_shine) = Some (JString tweetText) /\
    forallb is_space tweetText = false /\
    (1 <= length tweetText <= 1000)%nat.
Proof.
  apply (calls_need_valid_request lower_ascii env_ok net_ok (post text_shine)).
  discriminate.
Defined.

(** X13: every failed request (rejected fetch, HTTP error, blocked
    answer, malformed JSON) comes back from [callApi] as an object that
    holds a non-empty [error] and nothing else, in both revisions; a parsed
    text comes back as it is. *)
Theorem call_failures_become_errors (outcome : FetchOutcome) :
  (forall value, outcome <> Json value) ->
  (exists message,
     message <> [] /\
     to_object outcome = JsonObject (error_object message)) /\
  (exists message,
     message <> [] /\
     Legacy.to_object outcome = JsonObject (error_object message)).
Proof.
  intros H. destruct outcome as [|status|blockReason| |value].
  - split; eexists; (split; [|reflexivity]); discriminate.
  - split; eexists; (split; [|reflexivity]); discriminate.
  - split; eexists; (split; [|reflexivity]); discriminate.
  - split; eexists; (split; [|reflexivity]); discriminate.
  - exfalso. apply (H value). reflexivity.
Qed.

Lemma call_failures_become_errors_witness :
  (exists message,
     message <> [] /\
     to_object (HttpError 503) = JsonObject (error_object message)) /\
  (exists message,
     message <> [] /\
     Legacy.to_object (HttpError 503) = JsonObject (error_object message)).
Proof.
  apply (call_failures_become_errors (HttpError 503)). discriminate.
Defined.

(** ** The response body *)

Lemma display_opening (hantei : Hantei) (persona : Persona)
    (comment : Field jsstring) :
  starts_with hantei_open (display hantei persona comment) = true.
Proof. destruct hantei, persona; reflexivity. Qed.

Lemma gougi_class_values (b : Score) (sum : Q) :
  gougiClass (gougi b sum) = class_kettei \/
  gougiClass (gougi b sum) = class_ware \/
  gougiClass (gougi b sum) = class_miokuri.
Proof.
  unfold gougi.
  destruct (score_geb b 7 && q_lt sum 2); [left; reflexivity|].
  destruct (q_ge sum 2); [left; reflexivity|].
  destruct (q_ge sum 1); [right; left|right; right]; reflexivity.
Qed.

(** X14: in every 200 response of the revised handler the reason is
    present and not empty, each of the three display strings opens with
    the judgement bracket, and the class is one of the three class names. *)
Theorem success_body_shape (toLowerCase : jsstring -> jsstring)
    (env : Env) (net : Network) (req : Request) (r : FinalResponse.t) :
  snd (handler toLowerCase env net req) = Responded 200 (FinalBody r) ->
  (exists s, FinalResponse.ai_reason r = Has s /\ s <> []) /\
  starts_with hantei_open (FinalResponse.bengo r) = true /\
  starts_with hantei_open (FinalResponse.houmu r) = true /\
  starts_with hantei_open (FinalResponse.onee r) = true /\
  (FinalResponse.gougiClass r = class_kettei \/
   FinalResponse.gougiClass r = class_ware \/
   FinalResponse.gougiClass r = class_miokuri).
Proof.
  pose proof (handler_outcomes toLowerCase env net req) as H.
  outcomes H; rewrite E; unfold on_exception; simpl; try discriminate.
  intros [= <-]. split; [|split; [|split; [|split]]].
  - eexists. split; [reflexivity|].
    destruct (reason _) as [| |[|u s]]; discriminate.
  - apply display_opening.
  - apply display_opening.
  - apply display_opening.
  - apply gougi_class_values.
Qed.

Lemma success_body_shape_witness :
  exists r,
    snd (handler lower_ascii env_ok net_ok (post text_shine)) =
      Responded 200 (FinalBody r) /\
    (exists s, FinalResponse.ai_reason r = Has s /\ s <> []) /\
    starts_with hantei_open (FinalResponse.bengo r) = true.
Proof.
  eexists. split; [reflexivity|].
  destruct (success_body_shape lower_ascii env_ok net_ok (post text_shine) _
              eq_refl) as (H1 & H2 & _).
  split; assumption.
Defined.

(** X15: for each persona the prefix tells the verdict: two verdicts of the
    same persona never share a prefix. *)
Theorem getPrefix_injective (h1 h2 : Hantei) (persona : Persona) :
  getPrefix h1 persona = getPrefix h2 persona -> h1 = h2.
Proof. destruct h1, h2, persona; first [reflexivity | discriminate]. Qed.

Lemma getPrefix_injective_witness : Chuuritsu = Chuuritsu.
Proof. apply (getPrefix_injective Chuuritsu Chuuritsu Houmu). reflexivity. Defined.

(** ** The collective verdict in terms of the scores *)

Ltac by_thresholds :=
  unfold gougi_of, gougi, hanteiFlags, getHantei, gougiScore, score_geb;
  simpl;
  repeat match goal with
         | |- context [?x >=? ?k] => destruct (Z.geb_spec x k)
         end.

Ltac score_props :=
  unfold score_at_least, score_short_of in *;
  repeat match goal with
         | H : exists _, _ |- _ => destruct H as (? & ? & ?)
         | H : _ /\ _ |- _ => destruct H
         | H : Num _ = Num _ |- _ => injection H as <-
         | H : NotNumber = Num _ |- _ => discriminate H
         | H : forall z, Num ?x = Num z -> _ |- _ => specialize (H x eq_refl)
         | H : forall z, NotNumber = Num z -> _ |- _ => clear H
         end.

Ltac score_goal :=
  unfold score_at_least, score_short_of;
  repeat match goal with
         | |- _ /\ _ => split
         | |- exists z, Num ?x = Num z /\ _ => exists x; split; [reflexivity|]
         | |- forall z, Num _ = Num z -> _ =>
           let y := fresh in let Hy := fresh in
           intros y Hy; injection Hy as <-
         | |- forall z, NotNumber = Num z -> _ =>
           let y := fresh in let Hy := fresh in
           intros y Hy; discriminate Hy
         end.

(** X16: read off the three final scores, the lawyer's override is shown
    exactly when the lawyer scores 7 or more, the two others do not reach 5
    and are not both neutral; and the request is shelved exactly when
    nobody is in favour and at most one persona is neutral.  A score that
    is not a number reaches no threshold. *)
Theorem gougi_by_scores (s : Scores) :
  (gougiResult (gougi_of s) = gougi_bousou <->
   score_at_least (bengoScore s) 7 /\
   score_short_of (houmuScore s) 5 /\ score_short_of (oneeScore s) 5 /\
   (score_short_of (houmuScore s) 4 \/ score_short_of (oneeScore s) 3)) /\
  (gougiResult (gougi_of s) = gougi_miokuri <->
   score_short_of (bengoScore s) 5 /\ score_short_of (houmuScore s) 5 /\
   score_short_of (oneeScore s) 5 /\
   (score_short_of (bengoScore s) 3 \/ score_short_of (houmuScore s) 4) /\
   (score_short_of (bengoScore s) 3 \/ score_short_of (oneeScore s) 3) /\
   (score_short_of (houmuScore s) 4 \/ score_short_of (oneeScore s) 3)).
Proof.
  rewrite <- !score_geb_short_of, <- !score_geb_at_least.
  destruct s as [[b|] [h|] [o|]]; cbn [bengoScore houmuScore oneeScore];
    split; by_thresholds; cbn; split; intros Hgoal;
    first [ discriminate Hgoal
          | reflexivity
          | lia
          | intuition (first [discriminate | congruence | lia]) ].
Qed.

Lemma class_rank_formula (b : Score) (flags : HanteiFlags.t) :
  let total := rank (HanteiFlags.bengo flags) + rank (HanteiFlags.houmu flags)
               + rank (HanteiFlags.onee flags) in
  class_rank (gougiClass (gougi b (gougiScore flags))) =
  Z.max (if score_geb b 7 then 2 else 0)
        (if 4 <=? total then 2 else if 2 <=? total then 1 else 0).
Proof.
  unfold gougi. destruct (score_geb b 7); destruct flags as [[] [] []];
    reflexivity.
Qed.

(** X17: raising scores never lowers the collective class: if each score
    of one triple is at most the score of another, the class of the first
    is at most the class of the second in the order miokuri, ware,
    kettei. *)
Theorem collective_class_monotone (a b : Scores) :
  score_le (bengoScore a) (bengoScore b) ->
  score_le (houmuScore a) (houmuScore b) ->
  score_le (oneeScore a) (oneeScore b) ->
  class_rank (gougiClass (gougi_of a)) <= class_rank (gougiClass (gougi_of b)).
Proof.
  intros Hb Hh Ho. unfold gougi_of. rewrite !class_rank_formula.
  cbv zeta. unfold hanteiFlags.
  cbn [HanteiFlags.bengo HanteiFlags.houmu HanteiFlags.onee].
  pose proof (getHantei_monotone _ _ 5 3 Hb).
  pose proof (getHantei_monotone _ _ 5 4 Hh).
  pose proof (getHantei_monotone _ _ 5 3 Ho).
  destruct Hb as (x & y & Ex & Ey & Hxy). rewrite Ex, Ey in *.
  cbn [score_geb].
  destruct (Z.geb_spec x 7), (Z.geb_spec y 7);
    try lia;
    repeat match goal with
           | |- context [?u <=? ?w] => destruct (Z.leb_spec u w)
           end; lia.
Qed.

Lemma collective_class_monotone_witness :
  class_rank (gougiClass (gougi_of {| bengoScore := Num 3; houmuScore := Num 1; oneeScore := Num 4 |}))
  <= class_rank (gougiClass (gougi_of {| bengoScore := Num 7; houmuScore := Num 1; oneeScore := Num 4 |})).
Proof.
  apply (collective_class_monotone
           {| bengoScore := Num 3; houmuScore := Num 1; oneeScore := Num 4 |}
           {| bengoScore := Num 7; houmuScore := Num 1; oneeScore := Num 4 |});
    apply score_le_num; lia.
Defined.

(** ** Primary scores as sums *)

(** Each primary score is a number within its bounds, or it is not a
    number because the level names an inherited property (and, for the
    lawyer and the commentator, rule 1 did not overwrite it). *)
Lemma primary_shape (text : jsstring) (aiResult : ApiObject) :
  let p := primary_scores text aiResult in
  let f1 := fires Rule1 text aiResult in
  ((exists z, bengoPrimaryScore p = Num z /\ 1 <= z <= 20 /\
              (f1 = true -> 9 <= z) /\
              (inherited (legal_risk aiResult) = false \/ f1 = true)) \/
   (bengoPrimaryScore p = NotNumber /\
    inherited (legal_risk aiResult) = true /\ f1 = false)) /\
  ((exists z, houmuPrimaryScore p = Num z /\ 1 <= z <= 17 /\
              (f1 = true -> 5 <= z) /\
              inherited (corporate_risk aiResult) = false) \/
   (houmuPrimaryScore p = NotNumber /\
    inherited (corporate_risk aiResult) = true)) /\
  ((exists z, oneePrimaryScore p = Num z /\ 1 <= z <= 20 /\
              (f1 = true -> 10 <= z) /\
              (inherited (emotional_discomfort aiResult) = false \/ f1 = true)) \/
   (oneePrimaryScore p = NotNumber /\
    inherited (emotional_discomfort aiResult) = true /\ f1 = false)).
Proof.
  intros p f1. destruct (primary_formula text aiResult) as (Hb & Hh & Ho).
  fold p in Hb, Hh, Ho. subst f1. rewrite Hb, Hh, Ho.
  destruct (base_score_number (legal_risk aiResult))
    as [(Il & ->)|(Il & zl & -> & Hl)];
  destruct (base_score_number (corporate_risk aiResult))
    as [(Ic & ->)|(Ic & zc & -> & Hc)];
  destruct (base_score_number (emotional_discomfort aiResult))
    as [(Ie & ->)|(Ie & ze & -> & He)];
  destruct (fires Rule1 text aiResult), (fires Rule2 text aiResult),
    (fires Rule3 text aiResult), (fires Rule4 text aiResult),
    (fires Rule5 text aiResult), (fires Rule6 text aiResult);
  simpl;
  repeat split;
  first [ right; repeat split; first [reflexivity | assumption]
        | left; eexists; split; [reflexivity|];
          repeat split; first [lia | discriminate | left; assumption
                              | right; reflexivity | assumption] ].
Qed.

(** X18: a primary score is always either a number within fixed bounds, 1
    to 20 for the lawyer, 1 to 17 for the legal department and 1 to 20 for
    the commentator, or not a number at all; it is a number whenever the
    persona's level does not name an inherited property, and also, for
    the lawyer and the commentator, whenever rule 1 fires. *)
Theorem primary_bounds (text : jsstring) (aiResult : ApiObject) :
  let p := primary_scores text aiResult in
  let f1 := fires Rule1 text aiResult in
  (bengoPrimaryScore p = NotNumber \/ score_in (bengoPrimaryScore p) 1 20) /\
  (houmuPrimaryScore p = NotNumber \/ score_in (houmuPrimaryScore p) 1 17) /\
  (oneePrimaryScore p = NotNumber \/ score_in (oneePrimaryScore p) 1 20) /\
  (inherited (legal_risk aiResult) = false \/ f1 = true ->
   score_in (bengoPrimaryScore p) 1 20) /\
  (inherited (corporate_risk aiResult) = false ->
   score_in (houmuPrimaryScore p) 1 17) /\
  (inherited (emotional_discomfort aiResult) = false \/ f1 = true ->
   score_in (oneePrimaryScore p) 1 20).
Proof.
  intros p f1. destruct (primary_shape text aiResult) as (Sb & Sh & So).
  fold p f1 in Sb, Sh, So. unfold score_in.
  destruct Sb as [(zb & -> & Bb & _ & _)|(-> & Ib & Fb)];
  destruct Sh as [(zh & -> & Bh & _ & _)|(-> & Ih)];
  destruct So as [(zo & -> & Bo & _ & _)|(-> & Io & Fo)];
  repeat split;
  first [ left; reflexivity
        | right; eexists; split; [reflexivity|assumption]
        | intros; eexists; split; [reflexivity|assumption]
        | intros [Hc|Hc]; congruence
        | intros Hc; congruence ].
Qed.

Lemma clamp_moved (p : Score) (d : Z) :
  moved_at_most (clamp (score_add p d) 0 10) (clamp (score_add p 0) 0 10)
    (Z.abs d).
Proof.
  destruct p as [z|]; [right|left; split; reflexivity].
  eexists. eexists. split; [reflexivity|]. split; [reflexivity|]. lia.
Qed.

(** X19: an adjustment that is a JSON integer (or is missing, null or 0,
    which all count as 0) moves a final score by no more than its own size:
    each final score of the revised handler and the score with zero
    adjustments are both numbers that differ by at most the absolute value
    of the adjustment, or neither is a number. *)
Theorem adjustment_moves_little (toLowerCase : jsstring -> jsstring)
    (tweetText : jsstring) (aiResult adjustments : ApiObject) :
  let s := scoring toLowerCase tweetText aiResult adjustments in
  let z := scoring toLowerCase tweetText aiResult zero_adjustments in
  moved_at_most (bengoScore s) (bengoScore z)
    (Z.abs (or_num (bengo_adjust adjustments) 0)) /\
  moved_at_most (houmuScore s) (houmuScore z)
    (Z.abs (or_num (houmu_adjust adjustments) 0)) /\
  moved_at_most (oneeScore s) (oneeScore z)
    (Z.abs (or_num (onee_adjust adjustments) 0)).
Proof.
  unfold scoring. cbn [bengoScore houmuScore oneeScore].
  change (or_num (bengo_adjust zero_adjustments) 0) with 0.
  change (or_num (houmu_adjust zero_adjustments) 0) with 0.
  change (or_num (onee_adjust zero_adjustments) 0) with 0.
  repeat split; apply clamp_moved.
Qed.

Lemma clamp_low (p : Score) (d hi : Z) :
  (forall z, p = Num z -> z <= hi) -> d <= - hi ->
  zero_or_not_number (clamp (score_add p d) 0 10) /\
  (forall z, p = Num z -> clamp (score_add p d) 0 10 = Num 0).
Proof.
  intros Hp Hd. destruct p as [z|].
  - specialize (Hp z eq_refl).
    assert (E : clamp (score_add (Num z) d) 0 10 = Num 0).
    { simpl. f_equal. lia. }
    split; [left; exact E|intros; exact E].
  - split; [right; reflexivity|]. intros z Hz. discriminate Hz.
Qed.

(** X20: the adjustments are not range-checked.  Integer adjustments of
    -20 or less leave no final score of the revised handler above 0
    whatever the text says: each is 0 or not a number (and all three are 0
    when no level names an inherited property), all three personas are
    opposed and the request is shelved. *)
Theorem adjustment_unchecked (toLowerCase : jsstring -> jsstring)
    (tweetText : jsstring) (aiResult adjustments : ApiObject) :
  or_num (bengo_adjust adjustments) 0 <= -20 ->
  or_num (houmu_adjust adjustments) 0 <= -20 ->
  or_num (onee_adjust adjustments) 0 <= -20 ->
  let s := scoring toLowerCase tweetText aiResult adjustments in
  zero_or_not_number (bengoScore s) /\
  zero_or_not_number (houmuScore s) /\
  zero_or_not_number (oneeScore s) /\
  (inherited (legal_risk aiResult) = false ->
   inherited (corporate_risk aiResult) = false ->
   inherited (emotional_discomfort aiResult) = false ->
   s = {| bengoScore := Num 0; houmuScore := Num 0; oneeScore := Num 0 |}) /\
  hanteiFlags s =
    {| HanteiFlags.bengo := Hantai; HanteiFlags.houmu := Hantai;
       HanteiFlags.onee := Hantai |} /\
  gougi_of s =
    {| gougiResult := gougi_miokuri; gougiClass := class_miokuri |}.
Proof.
  intros Hb Hh Ho s.
  destruct (primary_shape (toLowerCase tweetText) aiResult) as (Sb & Sh & So).
  cbv zeta in Sb, Sh, So.
  assert (Bb : forall z, bengoPrimaryScore
                 (primary_scores (toLowerCase tweetText) aiResult) = Num z ->
               z <= 20).
  { intros z E. destruct Sb as [(y & Ey & B & _)|(Ey & _)]; [|congruence].
    rewrite E in Ey. injection Ey as <-. lia. }
  assert (Bh : forall z, houmuPrimaryScore
                 (primary_scores (toLowerCase tweetText) aiResult) = Num z ->
               z <= 20).
  { intros z E. destruct Sh as [(y & Ey & B & _)|(Ey & _)]; [|congruence].
    rewrite E in Ey. injection Ey as <-. lia. }
  assert (Bo : forall z, oneePrimaryScore
                 (primary_scores (toLowerCase tweetText) aiResult) = Num z ->
               z <= 20).
  { intros z E. destruct So as [(y & Ey & B & _)|(Ey & _)]; [|congruence].
    rewrite E in Ey. injection Ey as <-. lia. }
  destruct (clamp_low _ _ 20 Bb Hb) as (Zb & Nb).
  destruct (clamp_low _ _ 20 Bh Hh) as (Zh & Nh).
  destruct (clamp_low _ _ 20 Bo Ho) as (Zo & No).
  assert (Hs : s = {| bengoScore := bengoScore s; houmuScore := houmuScore s;
                      oneeScore := oneeScore s |}) by reflexivity.
  change (zero_or_not_number (bengoScore s)) in Zb.
  change (zero_or_not_number (houmuScore s)) in Zh.
  change (zero_or_not_number (oneeScore s)) in Zo.
  split; [exact Zb|]. split; [exact Zh|]. split; [exact Zo|]. split.
  - intros Il Ic Ie. rewrite Hs. 
    destruct Sb as [(zb & Eb & _)|(_ & Ib & _)]; [|congruence].
    destruct Sh as [(zh & Eh & _)|(_ & Ih)]; [|congruence].
    destruct So as [(zo & Eo & _)|(_ & Io & _)]; [|congruence].
    change (bengoScore s) with
      (clamp (score_add (bengoPrimaryScore
                           (primary_scores (toLowerCase tweetText) aiResult))
                (or_num (bengo_adjust adjustments) 0)) 0 10).
    change (houmuScore s) with
      (clamp (score_add (houmuPrimaryScore
                           (primary_scores (toLowerCase tweetText) aiResult))
                (or_num (houmu_adjust adjustments) 0)) 0 10).
    change (oneeScore s) with
      (clamp (score_add (oneePrimaryScore
                           (primary_scores (toLowerCase tweetText) aiResult))
                (or_num (onee_adjust adjustments) 0)) 0 10).
    rewrite (Nb _ Eb), (Nh _ Eh), (No _ Eo). reflexivity.
  - rewrite Hs. unfold gougi_of. rewrite Hs. 
    cbn [bengoScore houmuScore oneeScore].
    destruct Zb as [-> | ->], Zh as [-> | ->], Zo as [-> | ->];
      split; reflexivity.
Qed.

Lemma adjustment_unchecked_witness :
  let s := scoring lower_ascii text_all_rules risk_high adjust_minus_fifty in
  zero_or_not_number (bengoScore s) /\
  zero_or_not_number (houmuScore s) /\
  zero_or_not_number (oneeScore s) /\
  (inherited (legal_risk risk_high) = false ->
   inherited (corporate_risk risk_high) = false ->
   inherited (emotional_discomfort risk_high) = false ->
   s = {| bengoScore := Num 0; houmuScore := Num 0; oneeScore := Num 0 |}) /\
  hanteiFlags s =
    {| HanteiFlags.bengo := Hantai; HanteiFlags.houmu := Hantai;
       HanteiFlags.onee := Hantai |} /\
  gougi_of s =
    {| gougiResult := gougi_miokuri; gougiClass := class_miokuri |}.
Proof.
  apply (adjustment_unchecked lower_ascii text_all_rules risk_high
           adjust_minus_fifty); simpl; lia.
Defined.

Lemma clamp_high (p : Score) (d lo : Z) :
  (exists z, p = Num z /\ lo + 2 <= z) -> -2 <= d -> lo <= 10 ->
  score_at_least (clamp (score_add p d) 0 10) lo.
Proof.
  intros (z & -> & Hz) Hd Hlo. eexists. split; [reflexivity|]. lia.
Qed.

(** X21: a text with a violent-intent word, with adjustments inside the
    nominal range, always ends at the top: the lawyer scores at least 7 and
    the commentator at least 8, both are in favour, and the collective
    verdict is the first label with class kettei, whatever the risk
    assessment says.  The legal department scores at least 3, or its score
    is not a number. *)
Theorem violent_text_outcome (toLowerCase : jsstring -> jsstring)
    (tweetText : jsstring) (aiResult adjustments : ApiObject) :
  fires Rule1 (toLowerCase tweetText) aiResult = true ->
  nominal adjustments ->
  let s := scoring toLowerCase tweetText aiResult adjustments in
  score_at_least (bengoScore s) 7 /\
  (houmuScore s = NotNumber \/ score_at_least (houmuScore s) 3) /\
  score_at_least (oneeScore s) 8 /\
  HanteiFlags.bengo (hanteiFlags s) = Sansei /\
  HanteiFlags.onee (hanteiFlags s) = Sansei /\
  gougi_of s = {| gougiResult := gougi_dai; gougiClass := class_kettei |}.
Proof.
  intros H1 (Nb & Nh & No) s.
  destruct (primary_shape (toLowerCase tweetText) aiResult) as (Sb & Sh & So).
  cbv zeta in Sb, Sh, So. rewrite H1 in Sb, Sh, So.
  assert (Pb : score_at_least (bengoScore s) 7).
  { apply clamp_high; try lia.
    destruct Sb as [(z & E & _ & Hz & _)|(_ & _ & F)]; [|discriminate F].
    exists z. split; [exact E|]. specialize (Hz eq_refl). lia. }
  assert (Po : score_at_least (oneeScore s) 8).
  { apply clamp_high; try lia.
    destruct So as [(z & E & _ & Hz & _)|(_ & _ & F)]; [|discriminate F].
    exists z. split; [exact E|]. specialize (Hz eq_refl). lia. }
  assert (Ph : houmuScore s = NotNumber \/ score_at_least (houmuScore s) 3).
  { destruct Sh as [(z & E & _ & Hz & _)|(E & _)].
    - right. apply clamp_high; try lia.
      exists z. split; [exact E|]. specialize (Hz eq_refl). lia.
    - left. subst s. unfold scoring, pre_adjustment.
      cbn [houmuScore]. rewrite E. reflexivity. }
  clearbody s. destruct s as [b h o].
  cbn [bengoScore houmuScore oneeScore] in *.
  destruct Pb as (zb & -> & Hb), Po as (zo & -> & Ho).
  split; [eexists; split; [reflexivity|assumption]|].
  split; [exact Ph|].
  split; [eexists; split; [reflexivity|assumption]|].
  destruct h as [zh|]; by_thresholds; cbn;
    repeat split; first [reflexivity | lia].
Qed.

Lemma violent_text_outcome_witness :
  let s := scoring lower_ascii text_korosu risk_low (adjust_object (-2) (-2) (-2)) in
  score_at_least (bengoScore s) 7 /\
  (houmuScore s = NotNumber \/ score_at_least (houmuScore s) 3) /\
  score_at_least (oneeScore s) 8 /\
  HanteiFlags.bengo (hanteiFlags s) = Sansei /\
  HanteiFlags.onee (hanteiFlags s) = Sansei /\
  gougi_of s = {| gougiResult := gougi_dai; gougiClass := class_kettei |}.
Proof.
  apply (violent_text_outcome lower_ascii text_korosu risk_low
           (adjust_object (-2) (-2) (-2))).
  - reflexivity.
  - unfold nominal. simpl. lia.
Defined.

(** X26: in the revised handler a final score is never a number outside
    [0, 10]: each of the three is a number of that range or not a number,
    and it is a number of that range whenever the persona's level does not
    name an inherited property. *)
Lemma revised_scores_in_range (toLowerCase : jsstring -> jsstring)
    (tweetText : jsstring) (aiResult adjustments : ApiObject) :
  let s := scoring toLowerCase tweetText aiResult adjustments in
  (bengoScore s = NotNumber \/ score_in (bengoScore s) 0 10) /\
  (houmuScore s = NotNumber \/ score_in (houmuScore s) 0 10) /\
  (oneeScore s = NotNumber \/ score_in (oneeScore s) 0 10) /\
  (inherited (legal_risk aiResult) = false -> score_in (bengoScore s) 0 10) /\
  (inherited (corporate_risk aiResult) = false ->
   score_in (houmuScore s) 0 10) /\
  (inherited (emotional_discomfort aiResult) = false ->
   score_in (oneeScore s) 0 10).
Proof.
  intros s.
  destruct (primary_shape (toLowerCase tweetText) aiResult) as (Sb & Sh & So).
  cbv zeta in Sb, Sh, So. subst s. unfold scoring, pre_adjustment.
  cbn [bengoScore houmuScore oneeScore].
  split; [apply clamp_range|]. split; [apply clamp_range|].
  split; [apply clamp_range|]. repeat split.
  - intros I. destruct Sb as [(z & -> & _)|(_ & I' & _)]; [|congruence].
    eexists. split; [reflexivity|]. lia.
  - intros I. destruct Sh as [(z & -> & _)|(_ & I')]; [|congruence].
    eexists. split; [reflexivity|]. lia.
  - intros I. destruct So as [(z & -> & _)|(_ & I' & _)]; [|congruence].
    eexists. split; [reflexivity|]. lia.
Qed.

(** ** Keyword matching *)

Lemma starts_with_iff (k s : jsstring) :
  starts_with k s = true <-> exists r, s = k ++ r.
Proof.
  revert s. induction k as [|x k IH]; intros s.
  - simpl. split; [intros _; exists s; reflexivity|reflexivity].
  - destruct s as [|y s]; simpl.
    + split; [discriminate|]. intros [r H]. discriminate H.
    + rewrite andb_true_iff, N.eqb_eq, IH. split.
      * intros [-> [r ->]]. exists r. reflexivity.
      * intros [r [= -> ->]]. split; [reflexivity|]. exists r. reflexivity.
Qed.

Lemma includes_iff (k s : jsstring) :
  includes k s = true <-> exists l r, s = l ++ k ++ r.
Proof.
  induction s as [|y s IH].
  - simpl. rewrite orb_false_r, starts_with_iff. split.
    + intros [r H]. exists [], r. exact H.
    + intros (l & r & H). destruct l; [|discriminate H]. exists r. exact H.
  - cbn [includes]. rewrite orb_true_iff, starts_with_iff, IH. split.
    + intros [[r H]|(l & r & H)].
      * exists [], r. exact H.
      * exists (y :: l), r. rewrite H. reflexivity.
    + intros (l & r & H). destruct l as [|z l].
      * left. exists r. exact H.
      * right. injection H as _ H. exists l, r. exact H.
Qed.

Lemma regex_test_iff (alternatives : list jsstring) (s : jsstring) :
  regex_test alternatives s = true <->
  exists w l r, In w alternatives /\ s = l ++ w ++ r.
Proof.
  unfold regex_test. rewrite existsb_exists. split.
  - intros (w & Hin & H). apply includes_iff in H as (l & r & H).
    exists w, l, r. split; assumption.
  - intros (w & l & r & Hin & H). exists w. split; [assumption|].
    apply includes_iff. exists l, r. exact H.
Qed.

Lemma fires_words (r : Rule) (text : jsstring) (aiResult : ApiObject) :
  r <> Rule6 ->
  fires r text aiResult = regex_test (words_of r) text.
Proof. destruct r; try reflexivity. contradiction. Qed.

(** X22: each of the five keyword rules fires exactly when one of its
    words occurs in the tested text as a run of consecutive code units;
    nothing else in the text and nothing in the risk assessment matters. *)
Theorem keyword_rule_fires_iff (r : Rule) (text : jsstring)
    (aiResult : ApiObject) :
  r <> Rule6 ->
  (fires r text aiResult = true <->
   exists w l t, In w (words_of r) /\ text = l ++ w ++ t).
Proof.
  intros Hr. rewrite (fires_words r text aiResult Hr). apply regex_test_iff.
Qed.

Lemma keyword_rule_fires_iff_witness :
  fires Rule2 text_shine risk_low = true <->
  exists w l t, In w (words_of Rule2) /\ text_shine = l ++ w ++ t.
Proof.
  apply (keyword_rule_fires_iff Rule2 text_shine risk_low). discriminate.
Defined.

Lemma fires_padding (r : Rule) (l text t : jsstring) (aiResult : ApiObject) :
  fires r text aiResult = true -> fires r (l ++ text ++ t) aiResult = true.
Proof.
  assert (Hcase : r = Rule6 \/ r <> Rule6).
  { destruct r; first [left; reflexivity | right; discriminate]. }
  destruct Hcase as [->|Hr]; [exact (fun H => H)|].
  rewrite !(fires_words r _ aiResult Hr), !regex_test_iff.
  intros (w & l0 & t0 & Hin & ->). exists w, (l ++ l0), (t0 ++ t).
  split; [assumption|]. rewrite <- !app_assoc. reflexivity.
Qed.

Lemma term_le (a b : bool) (x : Z) :
  (a = true -> b = true) -> 0 <= x ->
  (if a then x else 0) <= (if b then x else 0).
Proof. destruct a, b; intros H Hx; try lia; discriminate (H eq_refl). Qed.


Lemma score_add_not_lowered (a b : Score) (x y : Z) :
  score_not_lowered a b -> x <= y ->
  score_not_lowered (score_add a x) (score_add b y).
Proof.
  intros (Hn & Hle) Hxy. destruct a as [za|], b as [zb|]; simpl.
  - split; [discriminate|]. intros u w [= <-] [= <-].
    specialize (Hle za zb eq_refl eq_refl). lia.
  - specialize (Hn eq_refl). discriminate Hn.
  - split; [discriminate|]. intros u w Hu. discriminate Hu.
  - split; [reflexivity|]. intros u w Hu. discriminate Hu.
Qed.

Lemma score_not_lowered_refl (a : Score) : score_not_lowered a a.
Proof.
  split; [exact (fun H => H)|]. intros x y Hx Hy. rewrite Hx in Hy.
  injection Hy as <-. lia.
Qed.

Lemma overwrite_not_lowered (a b : bool) (x : Z) (base : Score) :
  (a = true -> b = true) ->
  (forall z, base = Num z -> z <= x) ->
  score_not_lowered (if a then Num x else base) (if b then Num x else base).
Proof.
  intros Hab Hbase. destruct a, b; try discriminate (Hab eq_refl).
  - split; [discriminate|]. intros u w [= <-] [= <-]. lia.
  - split; [discriminate|]. intros u w Hu [= <-]. apply Hbase, Hu.
  - apply score_not_lowered_refl.
Qed.

Lemma base_score_at_most_4 (level : Field jsstring) (z : Z) :
  base_score level = Num z -> z <= 4.
Proof.
  intros E. destruct (base_score_number level)
    as [(_ & H)|(_ & y & H & Hy)]; [congruence|].
  rewrite E in H. injection H as <-. lia.
Qed.

(** X23: text added before or after a message never lowers a primary
    score: every rule that fired still fires, and the overwrite of rule 1
    (9 and 10) is above every base score.  Where both scores are numbers
    the second is at least the first, and a score that was a number stays
    one. *)
Theorem padding_never_lowers (l text t : jsstring) (aiResult : ApiObject) :
  primary_le (primary_scores text aiResult)
             (primary_scores (l ++ text ++ t) aiResult).
Proof.
  destruct (primary_formula text aiResult) as (Fb & Fh & Fo).
  destruct (primary_formula (l ++ text ++ t) aiResult) as (Gb & Gh & Go).
  cbv zeta in *. unfold primary_le. rewrite Fb, Fh, Fo, Gb, Gh, Go.
  pose proof (fun r => fires_padding r l text t aiResult) as Hp.
  pose proof (term_le _ _ 4 (Hp Rule1) ltac:(lia)).
  pose proof (term_le _ _ 4 (Hp Rule2) ltac:(lia)).
  pose proof (term_le _ _ 5 (Hp Rule2) ltac:(lia)).
  pose proof (term_le _ _ 2 (Hp Rule2) ltac:(lia)).
  pose proof (term_le _ _ 3 (Hp Rule3) ltac:(lia)).
  pose proof (term_le _ _ 2 (Hp Rule4) ltac:(lia)).
  pose proof (term_le _ _ 3 (Hp Rule4) ltac:(lia)).
  pose proof (term_le _ _ 2 (Hp Rule5) ltac:(lia)).
  pose proof (term_le _ _ 4 (Hp Rule5) ltac:(lia)).
  pose proof (term_le _ _ 2 (Hp Rule6) ltac:(lia)).
  split; [|split].
  - apply score_add_not_lowered; [|lia].
    apply overwrite_not_lowered; [apply Hp|].
    intros z E. apply base_score_at_most_4 in E. lia.
  - apply score_add_not_lowered; [apply score_not_lowered_refl|lia].
  - apply score_add_not_lowered; [|lia].
    apply overwrite_not_lowered; [apply Hp|].
    intros z E. apply base_score_at_most_4 in E. lia.
Qed.

(** ** The two validators *)

(** X24: the earlier handler rejects exactly the values that are not a
    string or are white space only; the revised handler accepts a text
    exactly when the earlier one does and the text has at most 1000 code
    units. *)
Theorem legacy_validate_spec (v : jsval) :
  ((exists message, Legacy.validate v = inl message) <->
   typeof_string v = false \/
   exists s, v = JString s /\ forallb is_space s = true) /\
  (forall s, validate v = inr s <->
             Legacy.validate v = inr s /\ (length s <= 1000)%nat).
Proof.
  destruct v as [| |b|n|t|].
  1,2,6: split;
    [split; [intros _; left; reflexivity|intros _; eexists; reflexivity]
    |intros s; split; [discriminate|intros [H _]; discriminate H]].
  1,2: split;
    [split; [intros _; left; reflexivity
            |intros _; unfold Legacy.validate; simpl; rewrite orb_true_r;
             eexists; reflexivity]
    |intros s; unfold validate, Legacy.validate; simpl; rewrite orb_true_r;
     split; [discriminate|intros [H _]; discriminate H]].
  rewrite legacy_validate_string. split.
  - split.
    + intros [message H]. right. exists t. split; [reflexivity|].
      destruct (forallb is_space t); [reflexivity|discriminate H].
    + intros [H|(s & [= <-] & H)]; [discriminate H|].
      rewrite H. eexists. reflexivity.
  - intros s. rewrite validate_string.
    destruct (forallb is_space t).
    + split; [discriminate|intros [H _]; discriminate H].
    + destruct (Z.ltb_spec 1000 (Z.of_nat (length t))).
      * split; [discriminate|]. intros [[= <-] Hlen]. lia.
      * split.
        -- intros [= <-]. split; [reflexivity|lia].
        -- intros [[= <-] _]. reflexivity.
Qed.

